(** * fintrack: the valuation and returns core of the finance tracker

    A shallow embedding of [python-starter-code.py]: the equity ledger and
    its valuation ([StockPortfolioService]), the fund ledger, its valuation
    and the SIP simulation ([MutualFundService]) and the net-worth
    aggregation ([FinanceTrackerDashboard]); with them the statement
    parser of [BankAggregatorService], the loop of [fetch_current_prices],
    [search_scheme] and [get_portfolio_performance].

    Numbers.  Python's [int] and [float] values are embedded as exact
    rationals [Q]; equalities between computed amounts are stated up to
    [Qeq] ([==]).  Rounding of binary floating point is outside the model.

    Errors.  Python exceptions are values of [exn]; a computation that may
    raise lives in [pyresult].

    Dictionaries.  A Python [dict] keeps its keys in insertion order and
    the valuation loops read it in that order, so a dictionary is an
    association list with unique keys ([Dict.t]).

    Collaborators.  The HTTP wrappers ([fetch_current_prices],
    [get_scheme_nav_history]), the clock and the float power operator are
    outside the embedding and enter as parameters. *)

From Stdlib Require Import List String Ascii Bool ZArith QArith Qround Lqa Lia.
From Stdlib Require Import DecimalNat DecimalString.
Import ListNotations.

Local Open Scope Q_scope.

(* ------------------------------------------------------------------ *)
(** ** Exceptions and the error monad *)

Inductive exn : Type :=
| ZeroDivisionError
| TypeError
| IndexError
| OverflowError.

Inductive pyresult (A : Type) : Type :=
| Ok (a : A)
| Raise (e : exn).

Arguments Ok {A} a.
Arguments Raise {A} e.

Definition bind {A B : Type} (c : pyresult A) (k : A -> pyresult B) : pyresult B :=
  match c with
  | Ok a => k a
  | Raise e => Raise e
  end.

Notation "x <- c ;; k" := (bind c (fun x => k))
  (at level 61, c at next level, right associativity).

(* ------------------------------------------------------------------ *)
(** ** Python arithmetic on exact numbers *)

(** [x > y] *)
Definition Qgtb (x y : Q) : bool :=
  match x ?= y with
  | Gt => true
  | _ => false
  end.

(** [x / y]: true division, raising on a zero divisor. *)
Definition pydiv (x y : Q) : pyresult Q :=
  if Qeq_bool y 0 then Raise ZeroDivisionError else Ok (x / y).

(** [xs[i]] on a list. *)
Definition pyindex {A : Type} (xs : list A) (i : nat) : pyresult A :=
  match nth_error xs i with
  | Some a => Ok a
  | None => Raise IndexError
  end.

(** [sum] of a list of numbers. *)
Definition Qsum (xs : list Q) : Q := fold_right Qplus 0 xs.

(** [str(n)] for a non-negative integer. *)
Definition str_of_nat (n : nat) : string :=
  NilEmpty.string_of_uint (Nat.to_uint n).

(* ------------------------------------------------------------------ *)
(** ** Dictionaries with string keys, in insertion order *)

Module Dict.

Definition t (V : Type) : Type := list (string * V).

Definition empty {V : Type} : t V := [].

(** [d.get(k)] *)
Fixpoint get {V : Type} (k : string) (d : t V) : option V :=
  match d with
  | [] => None
  | (k', v) :: rest => if String.eqb k k' then Some v else get k rest
  end.

(** [d[k] = v]: an existing key keeps its place, a new key goes last. *)
Fixpoint set {V : Type} (k : string) (v : V) (d : t V) : t V :=
  match d with
  | [] => [(k, v)]
  | (k', v') :: rest =>
      if String.eqb k k' then (k', v) :: rest else (k', v') :: set k v rest
  end.

(** [list(d.keys())], [d.values()], [d.items()] *)
Definition keys {V : Type} (d : t V) : list string := map fst d.
Definition values {V : Type} (d : t V) : list V := map snd d.
Definition items {V : Type} (d : t V) : list (string * V) := d.

(** A dictionary holds each key once. *)
Definition wf {V : Type} (d : t V) : Prop := NoDup (keys d).

End Dict.

(* ------------------------------------------------------------------ *)
(** ** 1. Bank aggregator service: statement parsing *)

(** A key of a decoded JSON object: absent, present with [null], or
    present with a value. *)
Inductive json_field (A : Type) : Type :=
| Absent
| Null
| Value (a : A).

Arguments Absent {A}.
Arguments Null {A}.
Arguments Value {A} a.

(** [d.get(k)] *)
Definition field_get {A : Type} (f : json_field A) : option A :=
  match f with
  | Value a => Some a
  | Absent | Null => None
  end.

(** [d.get(k, default)]: the default stands in for an absent key only. *)
Definition field_get_default {A : Type} (f : json_field A) (default : A)
    : option A :=
  match f with
  | Absent => Some default
  | Null => None
  | Value a => Some a
  end.

(** [x < y] *)
Definition Qltb (x y : Q) : bool := Qgtb y x.

Module BankAggregatorService.

(** A transaction of the raw statement data. *)
Module RawTransaction.
Record t : Type := mk {
  date : json_field string;
  amount : json_field Q;
  description : json_field string;
  balance_after_transaction : json_field Q;
  reference_id : json_field string
}.
End RawTransaction.

(** An account of the raw statement data. *)
Module RawAccount.
Record t : Type := mk {
  account_number : json_field string;
  bank_name : json_field string;
  transactions : json_field (list RawTransaction.t)
}.
End RawAccount.

Module RawData.
Record t : Type := mk {
  accounts : json_field (list RawAccount.t)
}.
End RawData.

(** A parsed transaction; [kind] is the key ['type']. *)
Module Transaction.
Record t : Type := mk {
  account_number : option string;
  bank_name : option string;
  date : option string;
  amount : option Q;
  kind : string;
  description : option string;
  balance : option Q;
  reference_id : option string
}.
End Transaction.

(** The inner loop, [for txn in account.get('transactions', [])].
    [None < 0] is a [TypeError]. *)
Fixpoint transactions_loop (account : RawAccount.t)
    (txns : list RawTransaction.t) (transactions : list Transaction.t)
    : pyresult (list Transaction.t) :=
  match txns with
  | [] => Ok transactions
  | txn :: rest =>
      match field_get_default (RawTransaction.amount txn) 0 with
      | None => Raise TypeError
      | Some amount =>
          transactions_loop account rest
            (transactions ++
             [Transaction.mk
                (field_get (RawAccount.account_number account))
                (field_get (RawAccount.bank_name account))
                (field_get (RawTransaction.date txn))
                (field_get (RawTransaction.amount txn))
                (if Qltb amount 0 then "debit"%string else "credit"%string)
                (field_get_default (RawTransaction.description txn) EmptyString)
                (field_get (RawTransaction.balance_after_transaction txn))
                (field_get (RawTransaction.reference_id txn))])
      end
  end.

(** The outer loop, [for account in raw_data.get('accounts', [])].
    Iterating over [None] is a [TypeError]. *)
Fixpoint accounts_loop (accounts : list RawAccount.t)
    (transactions : list Transaction.t) : pyresult (list Transaction.t) :=
  match accounts with
  | [] => Ok transactions
  | account :: rest =>
      match field_get_default (RawAccount.transactions account) [] with
      | None => Raise TypeError
      | Some txns =>
          transactions <- transactions_loop account txns transactions ;;
          accounts_loop rest transactions
      end
  end.

Definition _parse_statements (raw_data : RawData.t)
    : pyresult (list Transaction.t) :=
  match field_get_default (RawData.accounts raw_data) [] with
  | None => Raise TypeError
  | Some accounts => accounts_loop accounts []
  end.

End BankAggregatorService.

(* ------------------------------------------------------------------ *)
(** ** 2. Stock portfolio service *)

Module StockPortfolioService.

(** An entry of [self.holdings]. *)
Module Holding.
Record t : Type := mk {
  quantity : Q;
  purchase_price : Q;
  purchase_date : string;
  current_price : option Q
}.
End Holding.

(** An entry of the dictionary [fetch_current_prices] returns.  The key
    ['price'] is always present and may hold [None]; the other keys
    (market cap, P/E, ...) are not read by the valuation. *)
Module Quote.
Record t : Type := mk {
  price : option Q
}.
End Quote.

(** An entry of [holdings_detail]. *)
Module Detail.
Record t : Type := mk {
  quantity : Q;
  purchase_price : Q;
  current_price : Q;
  invested_value : Q;
  current_value : Q;
  gain_loss : Q;
  gain_loss_percent : Q;
  allocation_percent : Q
}.
End Detail.

Module Summary.
Record t : Type := mk {
  total_invested : Q;
  total_current : Q;
  total_gain_loss : Q;
  total_gain_loss_percent : Q;
  holdings : Dict.t Detail.t
}.
End Summary.

(** What [calculate_portfolio_metrics] returns: [{}] or the summary. *)
Inductive metrics : Type :=
| EmptyMetrics
| Metrics (s : Summary.t).

(** [m.get('total_current', 0)] *)
Definition get_total_current (m : metrics) : Q :=
  match m with
  | EmptyMetrics => 0
  | Metrics s => Summary.total_current s
  end.

(** [__init__] *)
Definition init : Dict.t Holding.t := Dict.empty.

Definition add_stock (self_holdings : Dict.t Holding.t) (ticker : string)
    (quantity purchase_price : Q) (purchase_date : string) : Dict.t Holding.t :=
  Dict.set ticker
    (Holding.mk quantity purchase_price purchase_date None)
    self_holdings.

(** [prices.get(ticker, {}).get('price', default)]: the default is used
    only when the ticker has no entry; an entry always has the key. *)
Definition lookup_price (prices : Dict.t Quote.t) (ticker : string)
    (default : Q) : option Q :=
  match Dict.get ticker prices with
  | None => Some default
  | Some q => Quote.price q
  end.

(** The body of the [for ticker, holding in self.holdings.items()] loop,
    threading [total_invested], [total_current] and [holdings_detail]. *)
Fixpoint metrics_loop (prices : Dict.t Quote.t)
    (items : list (string * Holding.t))
    (total_invested total_current : Q) (holdings_detail : Dict.t Detail.t)
    : pyresult (Q * Q * Dict.t Detail.t) :=
  match items with
  | [] => Ok (total_invested, total_current, holdings_detail)
  | (ticker, holding) :: rest =>
      let invested_value :=
        Holding.purchase_price holding * Holding.quantity holding in
      match lookup_price prices ticker (Holding.purchase_price holding) with
      | None => Raise TypeError   (* [None * quantity] *)
      | Some current_price =>
          let current_value := current_price * Holding.quantity holding in
          let gain_loss := current_value - invested_value in
          gain_loss_percent <-
            (if Qgtb invested_value 0
             then q <- pydiv gain_loss invested_value ;; Ok (q * 100)
             else Ok 0) ;;
          let total_invested := total_invested + invested_value in
          let total_current := total_current + current_value in
          allocation_percent <-
            (if Qgtb total_current 0
             then q <- pydiv current_value total_current ;; Ok (q * 100)
             else Ok 0) ;;
          metrics_loop prices rest total_invested total_current
            (Dict.set ticker
               (Detail.mk (Holding.quantity holding)
                  (Holding.purchase_price holding)
                  current_price invested_value current_value
                  gain_loss gain_loss_percent allocation_percent)
               holdings_detail)
      end
  end.

Section Valuation.

(** The price provider: for a list of tickers, the quotes it obtained. *)
Variable fetch_current_prices : list string -> Dict.t Quote.t.

Definition calculate_portfolio_metrics (self_holdings : Dict.t Holding.t)
    : pyresult metrics :=
  let tickers := Dict.keys self_holdings in
  match tickers with
  | [] => Ok EmptyMetrics
  | _ :: _ =>
      let prices := fetch_current_prices tickers in
      r <- metrics_loop prices (Dict.items self_holdings) 0 0 Dict.empty ;;
      let '(total_invested, total_current, holdings_detail) := r in
      total_gain_loss_percent <-
        (if Qgtb total_invested 0
         then q <- pydiv (total_current - total_invested) total_invested ;;
              Ok (q * 100)
         else Ok 0) ;;
      Ok (Metrics
            (Summary.mk total_invested total_current
               (total_current - total_invested)
               total_gain_loss_percent holdings_detail))
  end.

End Valuation.

(** [m.get('total_invested', 0)] *)
Definition get_total_invested (m : metrics) : Q :=
  match m with
  | EmptyMetrics => 0
  | Metrics s => Summary.total_invested s
  end.

Section PriceProvider.

(** The two calls [fetch_current_prices] makes to yfinance:
    [yf.download(tickers, ...)], whose result is not read but which may
    raise, and [yf.Ticker(ticker).info.get('currentPrice')], which may
    raise too and reads [None] when the key is missing. *)
Variable download : list string -> pyresult unit.
Variable current_price_of : string -> pyresult (option Q).

(** The inner [for ticker in tickers], with its own [try/except]. *)
Fixpoint fetch_loop (tickers : list string) (prices : Dict.t Quote.t)
    : Dict.t Quote.t :=
  match tickers with
  | [] => prices
  | ticker :: rest =>
      match current_price_of ticker with
      | Ok current_price =>
          fetch_loop rest (Dict.set ticker (Quote.mk current_price) prices)
      | Raise _ => fetch_loop rest prices
      end
  end.

Definition fetch_current_prices (tickers : list string) : Dict.t Quote.t :=
  match download tickers with
  | Ok _ => fetch_loop tickers Dict.empty
  | Raise _ => Dict.empty
  end.

End PriceProvider.

End StockPortfolioService.

(* ------------------------------------------------------------------ *)
(** ** 3. Mutual fund service *)

(** An entry of the NAV history, newest first.  The provider sends the NAV
    as text and the code reads it with [float(...)]; the embedding holds
    the number read. *)
Module NavEntry.
Record t : Type := mk {
  date : string;
  nav : Q
}.
End NavEntry.

Module MutualFundService.

(** An entry of [self.holdings]. *)
Module Holding.
Record t : Type := mk {
  units : Q;
  amount_invested : Q;
  current_nav : Q;
  purchase_date : string
}.
End Holding.

(** An entry of [holdings_detail]. *)
Module Detail.
Record t : Type := mk {
  units : Q;
  nav : Q;
  amount_invested : Q;
  current_value : Q;
  gain_loss : Q;
  gain_loss_percent : Q
}.
End Detail.

Module Summary.
Record t : Type := mk {
  total_invested : Q;
  total_current : Q;
  total_gain_loss : Q;
  total_gain_loss_percent : Q;
  holdings : Dict.t Detail.t
}.
End Summary.

(** The dictionary [calculate_sip_returns] returns on success. *)
Module Sip.
Record t : Type := mk {
  monthly_investment : Q;
  total_invested : Q;
  units_purchased : Q;
  current_nav : Q;
  current_value : Q;
  gain : Q;
  gain_percent : Q;
  xirr_estimate : Q
}.
End Sip.

(** [{"error": msg}] or the simulation's figures. *)
Inductive sip_result : Type :=
| SipError (error : string)
| SipReturns (r : Sip.t).

(** [__init__] *)
Definition init : Dict.t Holding.t := Dict.empty.

(** [f"Insufficient data. Only {n} months available"] *)
Definition insufficient_data (n : nat) : string :=
  ("Insufficient data. Only " ++ str_of_nat n ++ " months available")%string.

Fixpoint metrics_loop (items : list (string * Holding.t))
    (total_invested total_current : Q) (holdings_detail : Dict.t Detail.t)
    : pyresult (Q * Q * Dict.t Detail.t) :=
  match items with
  | [] => Ok (total_invested, total_current, holdings_detail)
  | (scheme_code, holding) :: rest =>
      let current_value := Holding.units holding * Holding.current_nav holding in
      let gain_loss := current_value - Holding.amount_invested holding in
      gain_loss_percent <-
        (if Qgtb (Holding.amount_invested holding) 0
         then q <- pydiv gain_loss (Holding.amount_invested holding) ;;
              Ok (q * 100)
         else Ok 0) ;;
      let total_invested := total_invested + Holding.amount_invested holding in
      let total_current := total_current + current_value in
      metrics_loop rest total_invested total_current
        (Dict.set scheme_code
           (Detail.mk (Holding.units holding) (Holding.current_nav holding)
              (Holding.amount_invested holding)
              current_value gain_loss gain_loss_percent)
           holdings_detail)
  end.

Definition calculate_portfolio_metrics (self_holdings : Dict.t Holding.t)
    : pyresult Summary.t :=
  r <- metrics_loop (Dict.items self_holdings) 0 0 Dict.empty ;;
  let '(total_invested, total_current, holdings_detail) := r in
  total_gain_loss_percent <-
    (if Qgtb total_invested 0
     then q <- pydiv (total_current - total_invested) total_invested ;;
          Ok (q * 100)
     else Ok 0) ;;
  Ok (Summary.mk total_invested total_current
        (total_current - total_invested)
        total_gain_loss_percent holdings_detail).

(** The body of [for i in range(...)]: one purchase per index. *)
Fixpoint sip_loop (nav_history : list NavEntry.t) (monthly_amount : Q)
    (range : list nat) (units_purchased : Q) : pyresult Q :=
  match range with
  | [] => Ok units_purchased
  | i :: rest =>
      entry <- pyindex nav_history i ;;
      q <- pydiv monthly_amount (NavEntry.nav entry) ;;
      sip_loop nav_history monthly_amount rest (units_purchased + q)
  end.

Section Provider.

(** The NAV provider (newest first, [[]] when the lookup fails), the
    clock read by [add_holding], and the float operator [**]. *)
Variable get_scheme_nav_history : string -> list NavEntry.t.
Variable now : string.
Variable float_pow : Q -> Q -> pyresult Q.

Definition add_holding (self_holdings : Dict.t Holding.t)
    (scheme_code : string) (units amount_invested : Q) : Dict.t Holding.t :=
  let nav_history := get_scheme_nav_history scheme_code in
  let latest_nav :=
    match nav_history with
    | entry :: _ => NavEntry.nav entry
    | [] => 0
    end in
  Dict.set scheme_code
    (Holding.mk units amount_invested latest_nav now)
    self_holdings.

Definition _estimate_xirr (current_value total_invested : Q) (months : Z)
    : pyresult Q :=
  if Qeq_bool total_invested 0 || (months =? 0)%Z then Ok 0
  else
    total_return <- pydiv (current_value - total_invested) total_invested ;;
    exponent <- pydiv 12 (inject_Z months) ;;
    power <- float_pow (1 + total_return) exponent ;;
    Ok ((power - 1) * 100).

Definition calculate_sip_returns (scheme_code : string)
    (monthly_amount : Q) (months : Z) : pyresult sip_result :=
  let nav_history := get_scheme_nav_history scheme_code in
  let len := Z.of_nat (List.length nav_history) in
  if (len <? months)%Z
  then Ok (SipError (insufficient_data (List.length nav_history)))
  else
    let total_invested := monthly_amount * inject_Z months in
    units_purchased <-
      sip_loop nav_history monthly_amount
        (seq 0 (Z.to_nat (Z.min months len))) 0 ;;
    entry <- pyindex nav_history 0 ;;
    let latest_nav := NavEntry.nav entry in
    let current_value := units_purchased * latest_nav in
    let gain := current_value - total_invested in
    gain_percent <-
      (if Qgtb total_invested 0
       then q <- pydiv gain total_invested ;; Ok (q * 100)
       else Ok 0) ;;
    xirr_estimate <- _estimate_xirr current_value total_invested months ;;
    Ok (SipReturns
          (Sip.mk monthly_amount total_invested units_purchased latest_nav
             current_value gain gain_percent xirr_estimate)).

End Provider.

(** An entry of the scheme directory: the key the search reads. *)
Module SchemeData.
Record t : Type := mk {
  schemeName : json_field string
}.
End SchemeData.

(** What [get_all_schemes] returns: a decoded JSON array (the literal
    [[]] after a failed request) or a JSON object keyed by scheme code. *)
Inductive schemes : Type :=
| SchemeList (entries : list SchemeData.t)
| SchemeDict (entries : Dict.t SchemeData.t).

(** The dictionary [search_scheme] returns for a match. *)
Module SchemeMatch.
Record t : Type := mk {
  scheme_code : string;
  scheme_name : option string
}.
End SchemeMatch.

(** How a call of [search_scheme] ends: with a match, with [None], or
    with an [AttributeError] (a list has no [items], [None] no [lower]). *)
Inductive search_outcome : Type :=
| Found (result : SchemeMatch.t)
| NotFound
| AttributeErrorRaised.

(** [needle in haystack] on strings. *)
Definition str_in (needle haystack : string) : bool :=
  match String.index 0 needle haystack with
  | Some _ => true
  | None => false
  end.

Section Search.

(** The scheme directory, and [str.lower]. *)
Variable get_all_schemes : schemes.
Variable lower : string -> string.

(** The body of [for scheme_code, scheme_data in schemes.items()]. *)
Fixpoint search_loop (scheme_name : string)
    (items : list (string * SchemeData.t)) : search_outcome :=
  match items with
  | [] => NotFound
  | (scheme_code, scheme_data) :: rest =>
      match field_get_default (SchemeData.schemeName scheme_data) EmptyString with
      | None => AttributeErrorRaised
      | Some name =>
          if str_in (lower scheme_name) (lower name)
          then Found (SchemeMatch.mk scheme_code
                        (field_get (SchemeData.schemeName scheme_data)))
          else search_loop scheme_name rest
      end
  end.

Definition search_scheme (scheme_name : string) : search_outcome :=
  match get_all_schemes with
  | SchemeList _ => AttributeErrorRaised
  | SchemeDict entries => search_loop scheme_name (Dict.items entries)
  end.

End Search.

End MutualFundService.

(* ------------------------------------------------------------------ *)
(** ** 4. Unified portfolio service *)

Module FinanceTrackerDashboard.

Module AssetAllocation.
Record t : Type := mk {
  bank_percent : Q;
  stocks_percent : Q;
  mf_percent : Q
}.
End AssetAllocation.

Module NetWorth.
Record t : Type := mk {
  bank_balance : Q;
  stock_portfolio_value : Q;
  mf_portfolio_value : Q;
  total_net_worth : Q;
  asset_allocation : AssetAllocation.t
}.
End NetWorth.

Section Dashboard.

Variable fetch_current_prices :
  list string -> Dict.t StockPortfolioService.Quote.t.

(** [self.stock_service.holdings] and [self.mf_service.holdings] are
    the two ledgers the dashboard reads. *)
Definition get_net_worth
    (stock_holdings : Dict.t StockPortfolioService.Holding.t)
    (mf_holdings : Dict.t MutualFundService.Holding.t)
    : pyresult NetWorth.t :=
  let bank_balance := 0 in
  stock_metrics <-
    StockPortfolioService.calculate_portfolio_metrics
      fetch_current_prices stock_holdings ;;
  let stock_value := StockPortfolioService.get_total_current stock_metrics in
  mf_metrics <- MutualFundService.calculate_portfolio_metrics mf_holdings ;;
  let mf_value := MutualFundService.Summary.total_current mf_metrics in
  let total_net_worth := bank_balance + stock_value + mf_value in
  bank_percent <-
    (if Qgtb total_net_worth 0
     then q <- pydiv bank_balance total_net_worth ;; Ok (q * 100)
     else Ok 0) ;;
  stocks_percent <-
    (if Qgtb total_net_worth 0
     then q <- pydiv stock_value total_net_worth ;; Ok (q * 100)
     else Ok 0) ;;
  mf_percent <-
    (if Qgtb total_net_worth 0
     then q <- pydiv mf_value total_net_worth ;; Ok (q * 100)
     else Ok 0) ;;
  Ok (NetWorth.mk bank_balance stock_value mf_value total_net_worth
        (AssetAllocation.mk bank_percent stocks_percent mf_percent)).

End Dashboard.

Module Performance.
Record t : Type := mk {
  total_invested : Q;
  total_current : Q;
  total_gain : Q;
  total_gain_percent : Q;
  stock_details : StockPortfolioService.metrics;
  mf_details : MutualFundService.Summary.t
}.
End Performance.

Section CombinedPerformance.

Variable fetch_current_prices :
  list string -> Dict.t StockPortfolioService.Quote.t.

Definition get_portfolio_performance
    (stock_holdings : Dict.t StockPortfolioService.Holding.t)
    (mf_holdings : Dict.t MutualFundService.Holding.t)
    : pyresult Performance.t :=
  stock_metrics <-
    StockPortfolioService.calculate_portfolio_metrics
      fetch_current_prices stock_holdings ;;
  mf_metrics <- MutualFundService.calculate_portfolio_metrics mf_holdings ;;
  let total_invested :=
    StockPortfolioService.get_total_invested stock_metrics
    + MutualFundService.Summary.total_invested mf_metrics in
  let total_current :=
    StockPortfolioService.get_total_current stock_metrics
    + MutualFundService.Summary.total_current mf_metrics in
  let total_gain := total_current - total_invested in
  total_gain_percent <-
    (if Qgtb total_invested 0
     then q <- pydiv total_gain total_invested ;; Ok (q * 100)
     else Ok 0) ;;
  Ok (Performance.mk total_invested total_current total_gain
        total_gain_percent stock_metrics mf_metrics).

End CombinedPerformance.

End FinanceTrackerDashboard.

(* ------------------------------------------------------------------ *)
(** ** Vocabulary of the statements *)

(** Short names for the two services. *)
Module Stock := StockPortfolioService.
Module Fund := MutualFundService.

(** The value of the source's idiom [(a / b * 100) if b > 0 else 0]. *)
Definition percent (a b : Q) : Q :=
  if Qgtb b 0 then a / b * 100 else 0.

(** Every quote the provider returned carries a price (none is [None]). *)
Definition quotes_priced (prices : Dict.t StockPortfolioService.Quote.t) : Prop :=
  Forall (fun kq => StockPortfolioService.Quote.price (snd kq) <> None) prices.

(** The relations among the fields of one entry of the equity
    [holdings_detail]. *)
Definition stock_detail_consistent (d : StockPortfolioService.Detail.t) : Prop :=
  let iv := StockPortfolioService.Detail.invested_value d in
  let cv := StockPortfolioService.Detail.current_value d in
  let gl := StockPortfolioService.Detail.gain_loss d in
  iv = StockPortfolioService.Detail.purchase_price d
       * StockPortfolioService.Detail.quantity d
  /\ cv = StockPortfolioService.Detail.current_price d
          * StockPortfolioService.Detail.quantity d
  /\ gl = cv - iv
  /\ StockPortfolioService.Detail.gain_loss_percent d = percent gl iv.

(** The relations among the fields of one entry of the fund
    [holdings_detail]. *)
Definition fund_detail_consistent (d : MutualFundService.Detail.t) : Prop :=
  let cv := MutualFundService.Detail.current_value d in
  let gl := MutualFundService.Detail.gain_loss d in
  let ai := MutualFundService.Detail.amount_invested d in
  cv = MutualFundService.Detail.units d * MutualFundService.Detail.nav d
  /\ gl = cv - ai
  /\ MutualFundService.Detail.gain_loss_percent d = percent gl ai.

(** The units a SIP buys over the [n] newest entries:
    the sum of [contribution / nav[i]] for [i] in [[0, n)]. *)
Definition sip_units (nav_history : list NavEntry.t) (contribution : Q)
    (n : nat) : Q :=
  Qsum (map (fun entry => contribution / NavEntry.nav entry)
          (firstn n nav_history)).

(** A float power for running examples: [x ** y] with the exponent cut to
    an integer, exact whenever [y] is one (as [12 / months] is when
    [months] divides 12); a zero base with a negative exponent raises, as
    in Python. *)
Definition integral_pow (x y : Q) : pyresult Q :=
  if Qeq_bool x 0 && (Qfloor y <? 0)%Z
  then Raise ZeroDivisionError
  else Ok (x ^ Qfloor y).

(* ------------------------------------------------------------------ *)
(** ** Sample inputs, after the source's usage example *)

(** A price provider that obtained no quote, and a NAV provider that
    obtained no history. *)
Definition no_quotes : list string -> Dict.t StockPortfolioService.Quote.t :=
  fun _ => Dict.empty.

Definition no_nav_history : string -> list NavEntry.t :=
  fun _ => [].

Definition sample_clock : string := "2024-01-01T00:00:00".

(** [add_stock("RELIANCE.NS", 10, 2500, ...)] alone, and followed by
    [add_stock("TCS.NS", 5, 3500, ...)]. *)
Definition one_stock : Dict.t StockPortfolioService.Holding.t :=
  StockPortfolioService.add_stock StockPortfolioService.init
    "RELIANCE.NS" 10 2500 "2023-01-15".

Definition two_stocks : Dict.t StockPortfolioService.Holding.t :=
  StockPortfolioService.add_stock one_stock "TCS.NS" 5 3500 "2023-03-20".

(** [add_holding("119551", 100, 150000)] while the provider has no NAV. *)
Definition fund_without_nav : Dict.t MutualFundService.Holding.t :=
  MutualFundService.add_holding no_nav_history sample_clock
    MutualFundService.init "119551" 100 150000.

(** The NAV series of the specification's SIP example, newest first. *)
Definition sample_nav_history : string -> list NavEntry.t :=
  fun _ => [NavEntry.mk "2024-03-01" 110;
            NavEntry.mk "2024-02-01" 105;
            NavEntry.mk "2024-01-01" 100].

(** Ledgers worth 50000 in equities (20 shares at 2500, no quote) and
    30000 in funds (300 units at a NAV of 100). *)
Definition stocks_worth_50000 : Dict.t StockPortfolioService.Holding.t :=
  StockPortfolioService.add_stock StockPortfolioService.init
    "RELIANCE.NS" 20 2500 "2023-01-15".

Definition nav_of_100 : string -> list NavEntry.t :=
  fun _ => [NavEntry.mk "2024-03-01" 100].

Definition funds_worth_30000 : Dict.t MutualFundService.Holding.t :=
  MutualFundService.add_holding nav_of_100 sample_clock
    MutualFundService.init "119551" 300 25000.

(* ------------------------------------------------------------------ *)
(** ** Sequences of ledger operations *)

(** The arguments of one call of [add_stock]. *)
Module StockAdd.
Record t : Type := mk {
  ticker : string;
  quantity : Q;
  purchase_price : Q;
  purchase_date : string
}.
End StockAdd.

(** The ledger after a sequence of [add_stock] calls, first call first. *)
Definition add_stocks (ledger : Dict.t StockPortfolioService.Holding.t)
    (calls : list StockAdd.t) : Dict.t StockPortfolioService.Holding.t :=
  fold_left
    (fun ledger call =>
       StockPortfolioService.add_stock ledger (StockAdd.ticker call)
         (StockAdd.quantity call) (StockAdd.purchase_price call)
         (StockAdd.purchase_date call))
    calls ledger.

(** The last call of a sequence that names [ticker], if any. *)
Definition last_add (ticker : string) (calls : list StockAdd.t)
    : option StockAdd.t :=
  fold_left
    (fun found call =>
       if String.eqb ticker (StockAdd.ticker call) then Some call else found)
    calls None.

(** The holding a call stores. *)
Definition holding_of_add (call : StockAdd.t) : StockPortfolioService.Holding.t :=
  StockPortfolioService.Holding.mk (StockAdd.quantity call)
    (StockAdd.purchase_price call) (StockAdd.purchase_date call) None.

(** A price provider whose only quote, for RELIANCE.NS, has no price, and
    one that quotes RELIANCE.NS at 2600. *)
Definition null_quote_for_reliance
    : list string -> Dict.t StockPortfolioService.Quote.t :=
  fun _ => [("RELIANCE.NS"%string, StockPortfolioService.Quote.mk None)].

Definition reliance_at_2600
    : list string -> Dict.t StockPortfolioService.Quote.t :=
  fun _ => [("RELIANCE.NS"%string, StockPortfolioService.Quote.mk (Some 2600))].

(** The equity gain a metrics dictionary reports:
    [m.get('total_gain_loss', 0)]. *)
Definition get_total_gain_loss (m : StockPortfolioService.metrics) : Q :=
  match m with
  | StockPortfolioService.EmptyMetrics => 0
  | StockPortfolioService.Metrics s =>
      StockPortfolioService.Summary.total_gain_loss s
  end.

(** Providers for running [fetch_current_prices]: a download that works
    and one that raises; a lookup that finds RELIANCE.NS at 2600, finds
    TCS.NS without a current price and raises on anything else. *)
Definition download_ok : list string -> pyresult unit :=
  fun _ => Ok tt.

Definition download_fails : list string -> pyresult unit :=
  fun _ => Raise OverflowError.

Definition sample_lookup : string -> pyresult (option Q) :=
  fun ticker =>
    if String.eqb ticker "RELIANCE.NS" then Ok (Some 2600)
    else if String.eqb ticker "TCS.NS" then Ok None
    else Raise IndexError.

(** A NAV series whose second entry is 0. *)
Definition nav_history_with_zero : string -> list NavEntry.t :=
  fun _ => [NavEntry.mk "2024-03-01" 110;
            NavEntry.mk "2024-02-01" 0;
            NavEntry.mk "2024-01-01" 100].

(** The sample series with two older entries after it. *)
Definition longer_nav_history : string -> list NavEntry.t :=
  fun _ => sample_nav_history EmptyString
           ++ [NavEntry.mk "2023-12-01" 95; NavEntry.mk "2023-11-01" 90].

(* ------------------------------------------------------------------ *)
(** ** Raw statement data *)

(** The list under a key that is iterated over: empty when the key is
    absent. *)
Definition listed {A : Type} (f : json_field (list A)) : list A :=
  match field_get f with
  | Some xs => xs
  | None => []
  end.

(** The amount a transaction is classified by: 0 when the key is
    absent. *)
Definition classified_amount (txn : BankAggregatorService.RawTransaction.t) : Q :=
  match field_get (BankAggregatorService.RawTransaction.amount txn) with
  | Some amount => amount
  | None => 0
  end.

(** No transaction has a null amount. *)
Definition amounts_not_null (txns : list BankAggregatorService.RawTransaction.t)
    : Prop :=
  Forall (fun txn => BankAggregatorService.RawTransaction.amount txn <> Null)
    txns.

(** No account has a null transaction list or a transaction with a null
    amount. *)
Definition accounts_not_null (accounts : list BankAggregatorService.RawAccount.t)
    : Prop :=
  Forall (fun account =>
            BankAggregatorService.RawAccount.transactions account <> Null
            /\ amounts_not_null
                 (listed (BankAggregatorService.RawAccount.transactions account)))
    accounts.

(** The raw data has no null where the parser iterates or compares. *)
Definition statements_not_null (raw_data : BankAggregatorService.RawData.t)
    : Prop :=
  BankAggregatorService.RawData.accounts raw_data <> Null
  /\ accounts_not_null (listed (BankAggregatorService.RawData.accounts raw_data)).

(** The transactions of the raw data, each with its account, in order. *)
Definition raw_transactions (raw_data : BankAggregatorService.RawData.t)
    : list (BankAggregatorService.RawAccount.t
            * BankAggregatorService.RawTransaction.t) :=
  flat_map
    (fun account =>
       map (pair account)
         (listed (BankAggregatorService.RawAccount.transactions account)))
    (listed (BankAggregatorService.RawData.accounts raw_data)).

(** A parsed transaction carries what its raw transaction and account
    hold. *)
Definition parsed_from
    (source : BankAggregatorService.RawAccount.t
              * BankAggregatorService.RawTransaction.t)
    (parsed : BankAggregatorService.Transaction.t) : Prop :=
  let (account, txn) := source in
  BankAggregatorService.Transaction.account_number parsed
  = field_get (BankAggregatorService.RawAccount.account_number account)
  /\ BankAggregatorService.Transaction.bank_name parsed
     = field_get (BankAggregatorService.RawAccount.bank_name account)
  /\ BankAggregatorService.Transaction.date parsed
     = field_get (BankAggregatorService.RawTransaction.date txn)
  /\ BankAggregatorService.Transaction.amount parsed
     = field_get (BankAggregatorService.RawTransaction.amount txn)
  /\ BankAggregatorService.Transaction.kind parsed
     = (if Qltb (classified_amount txn) 0 then "debit" else "credit")%string
  /\ BankAggregatorService.Transaction.description parsed
     = field_get_default
         (BankAggregatorService.RawTransaction.description txn) EmptyString
  /\ BankAggregatorService.Transaction.balance parsed
     = field_get
         (BankAggregatorService.RawTransaction.balance_after_transaction txn)
  /\ BankAggregatorService.Transaction.reference_id parsed
     = field_get (BankAggregatorService.RawTransaction.reference_id txn).

(** A statement of one account with a debit, a credit and a transaction
    without amount, and the same with the credit's amount null. *)
Definition sample_statement : BankAggregatorService.RawData.t :=
  BankAggregatorService.RawData.mk
    (Value
       [BankAggregatorService.RawAccount.mk (Value "XX1234"%string)
          (Value "HDFC"%string)
          (Value
             [BankAggregatorService.RawTransaction.mk
                (Value "2024-01-05"%string) (Value (-(1500)))
                (Value "Rent"%string) (Value 8500) (Value "T1"%string);
              BankAggregatorService.RawTransaction.mk
                (Value "2024-01-31"%string) (Value 40000)
                Absent (Value 48500) (Value "T2"%string);
              BankAggregatorService.RawTransaction.mk
                (Value "2024-02-01"%string) Absent
                Null Absent Absent])]).

Definition statement_with_null_amount : BankAggregatorService.RawData.t :=
  BankAggregatorService.RawData.mk
    (Value
       [BankAggregatorService.RawAccount.mk (Value "XX1234"%string)
          (Value "HDFC"%string)
          (Value
             [BankAggregatorService.RawTransaction.mk
                (Value "2024-01-05"%string) (Value (-(1500)))
                (Value "Rent"%string) (Value 8500) (Value "T1"%string);
              BankAggregatorService.RawTransaction.mk
                (Value "2024-01-31"%string) Null
                Absent (Value 48500) (Value "T2"%string)])]).

(* ------------------------------------------------------------------ *)
(** ** The scheme directory *)

(** The name a scheme is matched by: empty when the key is absent. *)
Definition matched_name (data : MutualFundService.SchemeData.t) : string :=
  match MutualFundService.SchemeData.schemeName data with
  | Value name => name
  | Absent | Null => EmptyString
  end.

(** The scheme's name contains the query, both lowered. *)
Definition scheme_matches (lower : string -> string) (query : string)
    (entry : string * MutualFundService.SchemeData.t) : Prop :=
  MutualFundService.str_in (lower query) (lower (matched_name (snd entry)))
  = true.

(** ASCII lower-casing, for running examples. *)
Definition ascii_lower_char (c : ascii) : ascii :=
  let n := nat_of_ascii c in
  if (65 <=? n)%nat && (n <=? 90)%nat then ascii_of_nat (n + 32) else c.

Fixpoint ascii_lower (s : string) : string :=
  match s with
  | EmptyString => EmptyString
  | String c rest => String (ascii_lower_char c) (ascii_lower rest)
  end.

(** A directory of three schemes, as a JSON object. *)
Definition sample_directory : Dict.t MutualFundService.SchemeData.t :=
  [("119551"%string, MutualFundService.SchemeData.mk (Value "Axis Midcap Fund"%string));
   ("102170"%string, MutualFundService.SchemeData.mk (Value "ICICI Growth Fund"%string));
   ("100033"%string, MutualFundService.SchemeData.mk (Value "Axis Growth Fund"%string))].


(* ================================================================== *)
(** * Properties *)

(* ------------------------------------------------------------------ *)
(** ** Numbers and guarded percentages *)

Lemma Qgtb_true (x y : Q) : Qgtb x y = true <-> y < x.
Proof.
  unfold Qgtb. rewrite (Qgt_alt x y).
  destruct (x ?= y); split; intro H; congruence.
Qed.

Lemma Qgtb_false (x y : Q) : Qgtb x y = false <-> x <= y.
Proof.
  unfold Qgtb. rewrite (Qle_alt x y).
  destruct (x ?= y); split; intro H; congruence.
Qed.

Lemma pydiv_ok (x y : Q) : ~ y == 0 -> pydiv x y = Ok (x / y).
Proof.
  intro Hy. unfold pydiv.
  destruct (Qeq_bool y 0) eqn:E; [|reflexivity].
  apply Qeq_bool_eq in E. contradiction.
Qed.

(** The idiom [(a / b * 100) if b > 0 else 0] returns [percent a b]. *)
Lemma guarded_percent (a b : Q) :
  (if Qgtb b 0 then q <- pydiv a b ;; Ok (q * 100) else Ok 0)
  = Ok (percent a b).
Proof.
  unfold percent. destruct (Qgtb b 0) eqn:E; [|reflexivity].
  apply Qgtb_true in E. rewrite pydiv_ok; [reflexivity|].
  intro H. rewrite H in E. discriminate.
Qed.

Lemma percent_pos (a b : Q) : 0 < b -> percent a b = a / b * 100.
Proof.
  intro H. unfold percent. apply Qgtb_true in H. now rewrite H.
Qed.

Lemma percent_nonpos (a b : Q) : b <= 0 -> percent a b = 0.
Proof.
  intro H. unfold percent. apply Qgtb_false in H. now rewrite H.
Qed.

(* ------------------------------------------------------------------ *)
(** ** Dictionaries *)

Section DictFacts.

Context {V : Type}.
Implicit Types (d : Dict.t V) (k : string) (v : V).

Lemma dict_get_set_same d k v : Dict.get k (Dict.set k v d) = Some v.
Proof.
  induction d as [|[k' v'] d IH]; simpl.
  - now rewrite String.eqb_refl.
  - destruct (String.eqb k k') eqn:E; simpl; rewrite E; auto.
Qed.

Lemma dict_get_set_other d k k' v :
  k' <> k -> Dict.get k' (Dict.set k v d) = Dict.get k' d.
Proof.
  intro Hne. induction d as [|[k0 v0] d IH]; simpl.
  - apply String.eqb_neq in Hne. now rewrite Hne.
  - destruct (String.eqb_spec k k0) as [->|E]; simpl.
    + apply String.eqb_neq in Hne. now rewrite Hne.
    + now rewrite IH.
Qed.

Lemma dict_set_present d k v :
  In k (Dict.keys d) ->
  Dict.keys (Dict.set k v d) = Dict.keys d /\
  List.length (Dict.set k v d) = List.length d.
Proof.
  induction d as [|[k0 v0] d IH]; simpl; [tauto|].
  intros [Heq | Hin].
  - subst k0. rewrite String.eqb_refl. simpl. auto.
  - destruct (String.eqb k k0); simpl; [auto|].
    destruct (IH Hin) as [-> ->]. auto.
Qed.

Lemma dict_set_fresh d k v :
  ~ In k (Dict.keys d) -> Dict.set k v d = d ++ [(k, v)].
Proof.
  induction d as [|[k0 v0] d IH]; simpl; intro Hnin; [reflexivity|].
  destruct (String.eqb_spec k k0) as [->|Hne]; [tauto|].
  rewrite IH; tauto.
Qed.

Lemma dict_get_none d k : Dict.get k d = None <-> ~ In k (Dict.keys d).
Proof.
  induction d as [|[k0 v0] d IH]; simpl; [tauto|].
  destruct (String.eqb_spec k k0) as [->|Hne].
  - split; [discriminate | tauto].
  - rewrite IH. split; [intros H [E|E]; [congruence|tauto] | tauto].
Qed.

Lemma dict_get_in d k v : Dict.get k d = Some v -> In (k, v) d.
Proof.
  induction d as [|[k0 v0] d IH]; simpl; [discriminate|].
  destruct (String.eqb_spec k k0) as [->|Hne].
  - intros [= ->]. now left.
  - intro H. right. auto.
Qed.

Lemma dict_get_key d k v : Dict.get k d = Some v -> In k (Dict.keys d).
Proof.
  intro H. apply dict_get_in in H.
  apply (in_map fst) in H. exact H.
Qed.

Lemma dict_in_get d k v : Dict.wf d -> In (k, v) d -> Dict.get k d = Some v.
Proof.
  unfold Dict.wf, Dict.keys.
  induction d as [|[k0 v0] d IH]; simpl; [tauto|].
  intros Hnd [[= -> ->] | Hin].
  - now rewrite String.eqb_refl.
  - inversion Hnd as [|? ? Hnin Hnd']; subst.
    destruct (String.eqb_spec k k0) as [->|Hne]; [|auto].
    exfalso. apply Hnin. apply (in_map fst) in Hin. exact Hin.
Qed.

Lemma dict_wf_empty : Dict.wf (@Dict.empty V).
Proof. constructor. Qed.

Lemma dict_wf_set d k v : Dict.wf d -> Dict.wf (Dict.set k v d).
Proof.
  intro Hwf. destruct (in_dec string_dec k (Dict.keys d)) as [Hin|Hnin].
  - unfold Dict.wf. now rewrite (proj1 (dict_set_present d k v Hin)).
  - rewrite dict_set_fresh by assumption.
    unfold Dict.wf, Dict.keys in *. rewrite map_app. simpl.
    apply NoDup_app; [assumption | constructor; [tauto | constructor] |].
    intros x Hx [<-|[]]. contradiction.
Qed.

End DictFacts.

(* ------------------------------------------------------------------ *)
(** ** The equity ledger *)

Module StockLedger.

Import StockPortfolioService.

Lemma init_wf : Dict.wf init.
Proof. apply dict_wf_empty. Qed.

Lemma add_stock_wf ledger ticker quantity purchase_price purchase_date :
  Dict.wf ledger ->
  Dict.wf (add_stock ledger ticker quantity purchase_price purchase_date).
Proof. apply dict_wf_set. Qed.

(** C6.  Adding a position for an identifier the ledger already holds
    replaces that position: the ledger then maps the identifier to the
    new quantity and unit cost alone, keeps the same identifiers (no
    second entry, nothing merged), and maps every other identifier to
    what it did before.  In particular, adding ("X", 10, 100) and then
    ("X", 5, 200) to any ledger leaves quantity 5 and unit cost 200
    under "X". *)
Theorem add_stock_last_write_wins :
  (forall ledger ticker quantity purchase_price purchase_date other,
      In ticker (Dict.keys ledger) ->
      other <> ticker ->
      let ledger' :=
        add_stock ledger ticker quantity purchase_price purchase_date in
      Dict.get ticker ledger'
        = Some (Holding.mk quantity purchase_price purchase_date None)
      /\ Dict.keys ledger' = Dict.keys ledger
      /\ Dict.get other ledger' = Dict.get other ledger)
  /\
  (forall ledger date1 date2,
      let ledger1 := add_stock ledger "X" 10 100 date1 in
      let ledger2 := add_stock ledger1 "X" 5 200 date2 in
      Dict.get "X" ledger2 = Some (Holding.mk 5 200 date2 None)
      /\ Dict.keys ledger2 = Dict.keys ledger1).
Proof.
  split.
  - intros ledger ticker q p d other Hin Hne. cbv zeta. unfold add_stock.
    split; [apply dict_get_set_same|].
    split; [apply dict_set_present; assumption|].
    apply dict_get_set_other; assumption.
  - intros ledger date1 date2. cbv zeta. unfold add_stock.
    split; [apply dict_get_set_same|].
    apply dict_set_present.
    eapply dict_get_key. apply dict_get_set_same.
Qed.

Lemma add_stock_last_write_wins_witness :
  let ledger := add_stock init "X" 10 100 "2023-01-15" in
  let ledger' := add_stock ledger "X" 5 200 "2023-03-20" in
  In "X"%string (Dict.keys ledger)
  /\ "TCS.NS"%string <> "X"%string
  /\ Dict.get "X" ledger' = Some (Holding.mk 5 200 "2023-03-20" None)
  /\ Dict.keys ledger' = Dict.keys ledger
  /\ Dict.get "TCS.NS" ledger' = Dict.get "TCS.NS" ledger.
Proof.
  cbv zeta.
  assert (Hin : In "X"%string
                  (Dict.keys (add_stock init "X" 10 100 "2023-01-15")))
    by (simpl; auto).
  assert (Hne : "TCS.NS"%string <> "X"%string) by discriminate.
  split; [exact Hin|]. split; [exact Hne|].
  exact (proj1 add_stock_last_write_wins
           (add_stock init "X" 10 100 "2023-01-15")
           "X"%string 5 200 "2023-03-20"%string "TCS.NS"%string Hin Hne).
Defined.

End StockLedger.

(* ------------------------------------------------------------------ *)
(** ** Sums and dictionary values *)

Lemma Qsum_app (xs ys : list Q) : Qsum (xs ++ ys) == Qsum xs + Qsum ys.
Proof.
  induction xs as [|x xs IH]; simpl.
  - ring.
  - rewrite IH. ring.
Qed.

Lemma dict_values_set_Forall {V : Type} (P : V -> Prop) (d : Dict.t V) k v :
  Forall P (Dict.values d) -> P v -> Forall P (Dict.values (Dict.set k v d)).
Proof.
  unfold Dict.values. intros Hd Hv.
  induction d as [|[k0 v0] d IH]; simpl.
  - constructor; [assumption | constructor].
  - inversion Hd as [|? ? Hv0 Hd']; subst.
    destruct (String.eqb k k0); simpl; constructor; auto.
Qed.

(* ------------------------------------------------------------------ *)
(** ** The equity valuation loop *)

Module StockValuation.

Import StockPortfolioService.

(** What one turn of the loop stores for a holding, given the resolved
    price and the running total of current value before the turn. *)
Lemma stock_loop_cons prices ticker holding rest ti tc hd :
  metrics_loop prices ((ticker, holding) :: rest) ti tc hd =
  match lookup_price prices ticker (Holding.purchase_price holding) with
  | None => Raise TypeError
  | Some cp =>
      let iv := Holding.purchase_price holding * Holding.quantity holding in
      let cv := cp * Holding.quantity holding in
      metrics_loop prices rest (ti + iv) (tc + cv)
        (Dict.set ticker
           (Detail.mk (Holding.quantity holding)
              (Holding.purchase_price holding) cp iv cv (cv - iv)
              (percent (cv - iv) iv) (percent cv (tc + cv)))
           hd)
  end.
Proof.
  simpl. destruct (lookup_price _ _ _) as [cp|]; [|reflexivity].
  rewrite !guarded_percent. reflexivity.
Qed.

Lemma lookup_price_priced prices ticker default :
  quotes_priced prices -> exists p, lookup_price prices ticker default = Some p.
Proof.
  intro Hp. unfold lookup_price.
  destruct (Dict.get ticker prices) as [q|] eqn:E; [|eauto].
  apply dict_get_in in E.
  unfold quotes_priced in Hp. rewrite Forall_forall in Hp.
  specialize (Hp _ E). simpl in Hp.
  destruct (Quote.price q); [eauto | congruence].
Qed.

(** The loop raises nothing but the [TypeError] of a [None] price. *)
Lemma stock_loop_raise prices items : forall ti tc hd e,
  metrics_loop prices items ti tc hd = Raise e -> e = TypeError.
Proof.
  induction items as [|[ticker holding] rest IH]; intros ti tc hd e.
  - discriminate.
  - rewrite stock_loop_cons.
    destruct (lookup_price _ _ _); [apply IH | congruence].
Qed.

Lemma stock_loop_ok prices items : forall ti tc hd,
  quotes_priced prices -> exists r, metrics_loop prices items ti tc hd = Ok r.
Proof.
  induction items as [|[ticker holding] rest IH]; intros ti tc hd Hp.
  - simpl. eauto.
  - rewrite stock_loop_cons.
    destruct (lookup_price_priced prices ticker
                (Holding.purchase_price holding) Hp) as [p ->].
    apply IH. assumption.
Qed.

Lemma stock_loop_consistent prices items : forall ti tc hd ti' tc' hd',
  Forall stock_detail_consistent (Dict.values hd) ->
  metrics_loop prices items ti tc hd = Ok (ti', tc', hd') ->
  Forall stock_detail_consistent (Dict.values hd').
Proof.
  induction items as [|[ticker holding] rest IH]; intros ti tc hd ti' tc' hd' Hhd.
  - simpl. intros [= <- <- <-]. assumption.
  - rewrite stock_loop_cons.
    destruct (lookup_price _ _ _) as [cp|]; [|discriminate].
    cbv zeta. apply IH.
    apply dict_values_set_Forall; [assumption|].
    repeat split.
Qed.

(** On a ledger with distinct keys every turn appends a fresh entry, so
    the totals grow by exactly what the new entries hold. *)
Lemma stock_loop_sums prices items : forall ti tc hd ti' tc' hd',
  NoDup (map fst items) ->
  (forall k, In k (map fst items) -> ~ In k (Dict.keys hd)) ->
  metrics_loop prices items ti tc hd = Ok (ti', tc', hd') ->
  Dict.keys hd' = Dict.keys hd ++ map fst items
  /\ ti' - ti == Qsum (map Detail.invested_value (Dict.values hd'))
                 - Qsum (map Detail.invested_value (Dict.values hd))
  /\ tc' - tc == Qsum (map Detail.current_value (Dict.values hd'))
                 - Qsum (map Detail.current_value (Dict.values hd)).
Proof.
  induction items as [|[ticker holding] rest IH];
    intros ti tc hd ti' tc' hd' Hnd Hfresh.
  - simpl. intros [= <- <- <-]. rewrite app_nil_r.
    split; [reflexivity|]. split; ring.
  - rewrite stock_loop_cons.
    destruct (lookup_price _ _ _) as [cp|]; [|discriminate].
    cbv zeta. intro Hloop.
    inversion Hnd as [|? ? Hnin Hnd']; subst.
    assert (Hf : ~ In ticker (Dict.keys hd)) by (apply Hfresh; simpl; auto).
    rewrite (dict_set_fresh hd ticker _ Hf) in Hloop.
    apply IH in Hloop; [|assumption|].
    + destruct Hloop as (Hk & Hi & Hc).
      unfold Dict.keys, Dict.values in *.
      rewrite map_app in Hk, Hi, Hc. simpl in Hk, Hi, Hc.
      rewrite map_app, Qsum_app in Hi, Hc. simpl in Hi, Hc.
      split; [rewrite Hk, <- app_assoc; reflexivity|].
      split; lra.
    + intros k Hk. unfold Dict.keys. rewrite map_app. simpl.
      intro Hin. apply in_app_or in Hin. destruct Hin as [Hin | [<- | []]].
      * apply (Hfresh k); simpl; auto.
      * contradiction.
Qed.

Lemma stock_loop_get_other prices items : forall ti tc hd ti' tc' hd' k,
  ~ In k (map fst items) ->
  metrics_loop prices items ti tc hd = Ok (ti', tc', hd') ->
  Dict.get k hd' = Dict.get k hd.
Proof.
  induction items as [|[ticker holding] rest IH];
    intros ti tc hd ti' tc' hd' k Hnin.
  - simpl. intros [= <- <- <-]. reflexivity.
  - rewrite stock_loop_cons.
    destruct (lookup_price _ _ _) as [cp|]; [|discriminate].
    cbv zeta. intro Hloop. simpl in Hnin.
    apply IH with (k := k) in Hloop; [|tauto].
    rewrite Hloop. apply dict_get_set_other. intro E. subst. tauto.
Qed.

(** The entry stored for a holding of the ledger. *)
Lemma stock_loop_get prices items : forall ti tc hd ti' tc' hd' k h,
  NoDup (map fst items) ->
  In (k, h) items ->
  metrics_loop prices items ti tc hd = Ok (ti', tc', hd') ->
  exists d,
    Dict.get k hd' = Some d
    /\ lookup_price prices k (Holding.purchase_price h)
       = Some (Detail.current_price d)
    /\ Detail.quantity d = Holding.quantity h
    /\ Detail.purchase_price d = Holding.purchase_price h
    /\ stock_detail_consistent d.
Proof.
  induction items as [|[ticker holding] rest IH];
    intros ti tc hd ti' tc' hd' k h Hnd Hin; [destruct Hin|].
  rewrite stock_loop_cons.
  destruct (lookup_price _ _ _) as [cp|] eqn:Hcp; [|discriminate].
  cbv zeta. intro Hloop.
  inversion Hnd as [|? ? Hnin Hnd']; subst.
  destruct Hin as [[= -> ->] | Hin].
  - apply stock_loop_get_other with (k := k) in Hloop; [|assumption].
    rewrite dict_get_set_same in Hloop.
    eexists. split; [exact Hloop|]. simpl.
    split; [assumption|]. repeat split.
  - eapply IH; eassumption.
Qed.

(** The shape of the result on a ledger that holds something. *)
Lemma stock_metrics_nonempty fetch ledger :
  ledger <> [] ->
  calculate_portfolio_metrics fetch ledger =
  (r <- metrics_loop (fetch (Dict.keys ledger)) ledger 0 0 Dict.empty ;;
   let '(ti, tc, hd) := r in
   Ok (Metrics (Summary.mk ti tc (tc - ti) (percent (tc - ti) ti) hd))).
Proof.
  intro Hne. unfold calculate_portfolio_metrics, Dict.items.
  destruct ledger as [|kv ledger]; [congruence|].
  cbn [Dict.keys map].
  destruct (metrics_loop _ _ _ _ _) as [[[ti tc] hd]|e]; [|reflexivity].
  cbn [bind]. rewrite guarded_percent. reflexivity.
Qed.

End StockValuation.

(* ------------------------------------------------------------------ *)
(** ** The fund valuation loop *)

Module FundValuation.

Import MutualFundService.

Lemma fund_loop_cons scheme_code holding rest ti tc hd :
  metrics_loop ((scheme_code, holding) :: rest) ti tc hd =
  let cv := Holding.units holding * Holding.current_nav holding in
  let ai := Holding.amount_invested holding in
  metrics_loop rest (ti + ai) (tc + cv)
    (Dict.set scheme_code
       (Detail.mk (Holding.units holding) (Holding.current_nav holding) ai
          cv (cv - ai) (percent (cv - ai) ai))
       hd).
Proof.
  simpl. rewrite guarded_percent. reflexivity.
Qed.

(** The fund loop raises nothing. *)
Lemma fund_loop_ok items : forall ti tc hd,
  exists r, metrics_loop items ti tc hd = Ok r.
Proof.
  induction items as [|[code holding] rest IH]; intros ti tc hd.
  - simpl. eauto.
  - rewrite fund_loop_cons. apply IH.
Qed.

Lemma fund_loop_consistent items : forall ti tc hd ti' tc' hd',
  Forall fund_detail_consistent (Dict.values hd) ->
  metrics_loop items ti tc hd = Ok (ti', tc', hd') ->
  Forall fund_detail_consistent (Dict.values hd').
Proof.
  induction items as [|[code holding] rest IH]; intros ti tc hd ti' tc' hd' Hhd.
  - simpl. intros [= <- <- <-]. assumption.
  - rewrite fund_loop_cons. cbv zeta. apply IH.
    apply dict_values_set_Forall; [assumption|].
    repeat split.
Qed.

Lemma fund_loop_sums items : forall ti tc hd ti' tc' hd',
  NoDup (map fst items) ->
  (forall k, In k (map fst items) -> ~ In k (Dict.keys hd)) ->
  metrics_loop items ti tc hd = Ok (ti', tc', hd') ->
  Dict.keys hd' = Dict.keys hd ++ map fst items
  /\ ti' - ti == Qsum (map Detail.amount_invested (Dict.values hd'))
                 - Qsum (map Detail.amount_invested (Dict.values hd))
  /\ tc' - tc == Qsum (map Detail.current_value (Dict.values hd'))
                 - Qsum (map Detail.current_value (Dict.values hd)).
Proof.
  induction items as [|[code holding] rest IH];
    intros ti tc hd ti' tc' hd' Hnd Hfresh.
  - simpl. intros [= <- <- <-]. rewrite app_nil_r.
    split; [reflexivity|]. split; ring.
  - rewrite fund_loop_cons. cbv zeta. intro Hloop.
    inversion Hnd as [|? ? Hnin Hnd']; subst.
    assert (Hf : ~ In code (Dict.keys hd)) by (apply Hfresh; simpl; auto).
    rewrite (dict_set_fresh hd code _ Hf) in Hloop.
    apply IH in Hloop; [|assumption|].
    + destruct Hloop as (Hk & Hi & Hc).
      unfold Dict.keys, Dict.values in *.
      rewrite map_app in Hk, Hi, Hc. simpl in Hk, Hi, Hc.
      rewrite map_app, Qsum_app in Hi, Hc. simpl in Hi, Hc.
      split; [rewrite Hk, <- app_assoc; reflexivity|].
      split; lra.
    + intros k Hk. unfold Dict.keys. rewrite map_app. simpl.
      intro Hin. apply in_app_or in Hin. destruct Hin as [Hin | [<- | []]].
      * apply (Hfresh k); simpl; auto.
      * contradiction.
Qed.

Lemma fund_loop_get_other items : forall ti tc hd ti' tc' hd' k,
  ~ In k (map fst items) ->
  metrics_loop items ti tc hd = Ok (ti', tc', hd') ->
  Dict.get k hd' = Dict.get k hd.
Proof.
  induction items as [|[code holding] rest IH];
    intros ti tc hd ti' tc' hd' k Hnin.
  - simpl. intros [= <- <- <-]. reflexivity.
  - rewrite fund_loop_cons. cbv zeta. intro Hloop. simpl in Hnin.
    apply IH with (k := k) in Hloop; [|tauto].
    rewrite Hloop. apply dict_get_set_other. intro E. subst. tauto.
Qed.

(** The entry stored for a holding of the fund ledger. *)
Lemma fund_loop_get items : forall ti tc hd ti' tc' hd' k h,
  NoDup (map fst items) ->
  In (k, h) items ->
  metrics_loop items ti tc hd = Ok (ti', tc', hd') ->
  exists d,
    Dict.get k hd' = Some d
    /\ Detail.units d = Holding.units h
    /\ Detail.nav d = Holding.current_nav h
    /\ Detail.amount_invested d = Holding.amount_invested h
    /\ fund_detail_consistent d.
Proof.
  induction items as [|[code holding] rest IH];
    intros ti tc hd ti' tc' hd' k h Hnd Hin; [destruct Hin|].
  rewrite fund_loop_cons. cbv zeta. intro Hloop.
  inversion Hnd as [|? ? Hnin Hnd']; subst.
  destruct Hin as [[= -> ->] | Hin].
  - apply fund_loop_get_other with (k := k) in Hloop; [|assumption].
    rewrite dict_get_set_same in Hloop.
    eexists. split; [exact Hloop|]. simpl. repeat split.
  - eapply IH; eassumption.
Qed.

(** The fund valuation always returns a summary. *)
Lemma fund_metrics_shape ledger :
  exists ti tc hd,
    metrics_loop ledger 0 0 Dict.empty = Ok (ti, tc, hd)
    /\ calculate_portfolio_metrics ledger
       = Ok (Summary.mk ti tc (tc - ti) (percent (tc - ti) ti) hd).
Proof.
  destruct (fund_loop_ok ledger 0 0 Dict.empty) as [[[ti tc] hd] Hloop].
  exists ti, tc, hd. split; [assumption|].
  unfold calculate_portfolio_metrics, Dict.items. rewrite Hloop.
  cbn [bind]. rewrite guarded_percent. reflexivity.
Qed.

Lemma add_holding_wf get_nav now ledger scheme_code units amount_invested :
  Dict.wf ledger ->
  Dict.wf (add_holding get_nav now ledger scheme_code units amount_invested).
Proof. apply dict_wf_set. Qed.

End FundValuation.

(* ------------------------------------------------------------------ *)
(** ** Valuation: allocation, missing prices, guards and totals *)

Module Valuation.

(** C1.  The code stores, as a position's allocation_percent, its
    current value over the total accumulated so far in the loop, not over
    the final total.  With RELIANCE.NS (10 at 2500) and TCS.NS (5 at 3500)
    and no quotes, the final total is 42500; the first position is given
    100 percent where the final total gives 25000 / 42500 * 100, and the
    allocations add up to more than 100. *)
Theorem allocation_percent_on_running_total :
  exists s d1 d2,
    Stock.calculate_portfolio_metrics no_quotes two_stocks = Ok (Stock.Metrics s)
    /\ Dict.get "RELIANCE.NS" (Stock.Summary.holdings s) = Some d1
    /\ Dict.get "TCS.NS" (Stock.Summary.holdings s) = Some d2
    /\ Dict.keys (Stock.Summary.holdings s) = ["RELIANCE.NS"; "TCS.NS"]%string
    /\ Stock.Summary.total_current s == 42500
    /\ Stock.Detail.current_value d1 == 25000
    /\ Stock.Detail.current_value d2 == 17500
    /\ Stock.Detail.allocation_percent d1 == 100
    /\ Stock.Detail.allocation_percent d2 == 17500 / 42500 * 100
    /\ ~ Stock.Detail.allocation_percent d1
         == Stock.Detail.current_value d1 / Stock.Summary.total_current s * 100
    /\ ~ Qsum (map Stock.Detail.allocation_percent
                 (Dict.values (Stock.Summary.holdings s))) == 100.
Proof.
  do 3 eexists.
  split; [vm_compute; reflexivity|].
  split; [vm_compute; reflexivity|].
  split; [vm_compute; reflexivity|].
  split; [reflexivity|].
  repeat split; try (vm_compute; reflexivity); intro H; vm_compute in H; discriminate.
Qed.

(** Whatever follows it in the ledger, the first position is given an
    allocation over its own value alone: 100 percent once it is worth
    something. *)
Lemma first_position_allocation fetch ticker holding rest s :
  Dict.wf ((ticker, holding) :: rest) ->
  Stock.calculate_portfolio_metrics fetch ((ticker, holding) :: rest)
  = Ok (Stock.Metrics s) ->
  exists d,
    Dict.get ticker (Stock.Summary.holdings s) = Some d
    /\ Stock.Detail.allocation_percent d
       = percent (Stock.Detail.current_value d) (0 + Stock.Detail.current_value d)
    /\ (0 < Stock.Detail.current_value d ->
        Stock.Detail.allocation_percent d == 100).
Proof.
  intros Hwf.
  rewrite StockValuation.stock_metrics_nonempty by discriminate.
  rewrite StockValuation.stock_loop_cons.
  destruct (Stock.lookup_price _ _ _) as [cp|]; [|discriminate].
  cbv zeta.
  destruct (Stock.metrics_loop _ rest _ _ _) as [[[ti tc] hd]|e] eqn:Hloop;
    [|discriminate].
  cbn [bind]. intros [= <-]. simpl.
  inversion Hwf as [|? ? Hnin _]; subst.
  apply StockValuation.stock_loop_get_other with (k := ticker) in Hloop;
    [|exact Hnin].
  simpl in Hloop. rewrite String.eqb_refl in Hloop.
  eexists. split; [exact Hloop|]. simpl. split; [reflexivity|].
  set (cv := cp * Stock.Holding.quantity holding).
  intro Hpos. rewrite percent_pos by lra. field. lra.
Qed.

(** A quote whose price is [None] makes the equity valuation raise. *)
Lemma null_price_raises_type_error :
  Stock.calculate_portfolio_metrics
    (fun _ => [("RELIANCE.NS"%string, Stock.Quote.mk None)]) one_stock
  = Raise TypeError.
Proof. reflexivity. Qed.

(** C2, as the claim states it, fails for funds: a fund added while its
    NAV series is empty is valued at 0, not at its cost, and shows its
    whole cost as a loss. *)
Lemma fund_without_nav_valued_at_zero :
  exists s d,
    Fund.calculate_portfolio_metrics fund_without_nav = Ok s
    /\ Dict.get "119551" (Fund.Summary.holdings s) = Some d
    /\ Fund.Detail.units d = 100
    /\ Fund.Detail.amount_invested d = 150000
    /\ Fund.Detail.nav d = 0
    /\ Fund.Detail.current_value d == 0
    /\ Fund.Detail.gain_loss d == - (150000)
    /\ ~ (Fund.Detail.current_value d == 100 * (150000 / 100)
          /\ Fund.Detail.gain_loss d == 0).
Proof.
  do 2 eexists.
  split; [vm_compute; reflexivity|].
  split; [vm_compute; reflexivity|].
  repeat split; try (vm_compute; reflexivity).
  intros [H _]. vm_compute in H. discriminate.
Qed.

(** C2, amended.  When no returned quote carries a null price, an
    equity position whose ticker has no quote is valued at its own
    purchase price: the valuation returns a summary in which that
    position has current_price = purchase_price, current_value =
    quantity * purchase_price and gain_loss = 0.  A fund holding added
    while its NAV series is empty records NAV 0: the fund valuation
    returns a summary in which it has current_value = 0 and gain_loss =
    - amount_invested.  Neither raises. *)
Theorem unavailable_price_valuation :
  (forall fetch ledger ticker h,
      Dict.wf ledger ->
      quotes_priced (fetch (Dict.keys ledger)) ->
      Dict.get ticker ledger = Some h ->
      Dict.get ticker (fetch (Dict.keys ledger)) = None ->
      exists s d,
        Stock.calculate_portfolio_metrics fetch ledger = Ok (Stock.Metrics s)
        /\ Dict.get ticker (Stock.Summary.holdings s) = Some d
        /\ Stock.Detail.current_price d = Stock.Holding.purchase_price h
        /\ Stock.Detail.current_value d
           == Stock.Holding.quantity h * Stock.Holding.purchase_price h
        /\ Stock.Detail.gain_loss d == 0)
  /\
  (forall get_nav now ledger scheme_code units amount_invested,
      Dict.wf ledger ->
      get_nav scheme_code = [] ->
      exists s d,
        Fund.calculate_portfolio_metrics
          (Fund.add_holding get_nav now ledger scheme_code units amount_invested)
        = Ok s
        /\ Dict.get scheme_code (Fund.Summary.holdings s) = Some d
        /\ Fund.Detail.nav d = 0
        /\ Fund.Detail.current_value d == 0
        /\ Fund.Detail.gain_loss d == - amount_invested).
Proof.
  split.
  - intros fetch ledger ticker h Hwf Hp Hget Hnone.
    assert (Hne : ledger <> []) by (intros ->; discriminate).
    rewrite (StockValuation.stock_metrics_nonempty fetch ledger Hne).
    destruct (StockValuation.stock_loop_ok (fetch (Dict.keys ledger)) ledger
                0 0 Dict.empty Hp) as [[[ti tc] hd] Hloop].
    rewrite Hloop. cbn [bind].
    destruct (StockValuation.stock_loop_get _ _ _ _ _ _ _ _ ticker h Hwf
                (dict_get_in _ _ _ Hget) Hloop)
      as (d & Hd & Hprice & Hq & Hpp & Hiv & Hcv & Hgl & _).
    exists (Stock.Summary.mk ti tc (tc - ti) (percent (tc - ti) ti) hd), d.
    split; [reflexivity|]. split; [exact Hd|].
    unfold Stock.lookup_price in Hprice. rewrite Hnone in Hprice.
    injection Hprice as Hprice.
    split; [symmetry; exact Hprice|].
    cbv zeta in Hiv, Hcv, Hgl.
    rewrite Hgl, Hcv, Hiv, <- Hprice, Hq, Hpp. split; ring.
  - intros get_nav now ledger code units amt Hwf Hnav.
    set (ledger' := Fund.add_holding get_nav now ledger code units amt).
    destruct (FundValuation.fund_metrics_shape ledger')
      as (ti & tc & hd & Hloop & ->).
    assert (Hwf' : Dict.wf ledger') by (apply FundValuation.add_holding_wf, Hwf).
    assert (Hin : In (code, Fund.Holding.mk units amt 0 now) ledger').
    { apply dict_get_in. unfold ledger', Fund.add_holding.
      rewrite Hnav. apply dict_get_set_same. }
    destruct (FundValuation.fund_loop_get _ _ _ _ _ _ _ _ _ Hwf' Hin Hloop)
      as (d & Hd & Hu & Hn & Ha & Hcv & Hgl & _).
    simpl in Hu, Hn, Ha. cbv zeta in Hcv, Hgl.
    exists (Fund.Summary.mk ti tc (tc - ti) (percent (tc - ti) ti) hd), d.
    split; [reflexivity|]. split; [exact Hd|]. split; [exact Hn|].
    rewrite Hgl, Hcv, Hn, Ha. split; ring.
Qed.

Lemma unavailable_price_valuation_witness :
  (exists s d,
      Stock.calculate_portfolio_metrics no_quotes one_stock = Ok (Stock.Metrics s)
      /\ Dict.get "RELIANCE.NS" (Stock.Summary.holdings s) = Some d
      /\ Stock.Detail.current_price d = 2500
      /\ Stock.Detail.current_value d == 10 * 2500
      /\ Stock.Detail.gain_loss d == 0)
  /\
  (exists s d,
      Fund.calculate_portfolio_metrics fund_without_nav = Ok s
      /\ Dict.get "119551" (Fund.Summary.holdings s) = Some d
      /\ Fund.Detail.nav d = 0
      /\ Fund.Detail.current_value d == 0
      /\ Fund.Detail.gain_loss d == - (150000)).
Proof.
  split.
  - refine (proj1 unavailable_price_valuation no_quotes one_stock
              "RELIANCE.NS"%string
              (Stock.Holding.mk 10 2500 "2023-01-15" None) _ _ _ _).
    + unfold Dict.wf. simpl. constructor; [simpl; tauto | constructor].
    + constructor.
    + reflexivity.
    + reflexivity.
  - refine (proj2 unavailable_price_valuation no_nav_history sample_clock
              Fund.init "119551"%string 100 150000 _ _).
    + constructor.
    + reflexivity.
Defined.

(** Entries consistent with the loop have a zero gain_loss_percent over
    a zero denominator. *)
Lemma percent_zero_denominator (a b : Q) : b == 0 -> percent a b = 0.
Proof.
  intro H. apply percent_nonpos. rewrite H. apply Qle_refl.
Qed.

(** C8.  The percentage computations guard their denominators.  The
    idiom [(a / b * 100) if b > 0 else 0], by which the core computes
    every percentage, returns without raising and yields 0 when b = 0.
    The equity valuation never raises ZeroDivisionError;
    it returns whenever no returned quote carries a null price; and in
    whatever it returns, every position with invested_value = 0 has
    gain_loss_percent = 0 and a total_invested = 0 gives
    total_gain_loss_percent = 0.  The fund valuation always returns, with
    the same two properties over amount_invested and total_invested. *)
Theorem zero_denominator_guards :
  (forall a b,
      (if Qgtb b 0 then q <- pydiv a b ;; Ok (q * 100) else Ok 0)
      = Ok (percent a b)
      /\ (b == 0 -> percent a b = 0))
  /\
  (forall fetch ledger,
      Stock.calculate_portfolio_metrics fetch ledger <> Raise ZeroDivisionError)
  /\
  (forall fetch ledger,
      quotes_priced (fetch (Dict.keys ledger)) ->
      exists m, Stock.calculate_portfolio_metrics fetch ledger = Ok m)
  /\
  (forall fetch ledger s,
      Stock.calculate_portfolio_metrics fetch ledger = Ok (Stock.Metrics s) ->
      Forall (fun d => Stock.Detail.invested_value d == 0 ->
                       Stock.Detail.gain_loss_percent d = 0)
        (Dict.values (Stock.Summary.holdings s))
      /\ (Stock.Summary.total_invested s == 0 ->
          Stock.Summary.total_gain_loss_percent s = 0))
  /\
  (forall ledger,
      exists s,
        Fund.calculate_portfolio_metrics ledger = Ok s
        /\ Forall (fun d => Fund.Detail.amount_invested d == 0 ->
                            Fund.Detail.gain_loss_percent d = 0)
             (Dict.values (Fund.Summary.holdings s))
        /\ (Fund.Summary.total_invested s == 0 ->
            Fund.Summary.total_gain_loss_percent s = 0)).
Proof.
  split; [|split; [|split; [|split]]].
  - intros a b. split; [apply guarded_percent | apply percent_zero_denominator].
  - intros fetch ledger.
    destruct ledger as [|kv ledger]; [discriminate|].
    rewrite StockValuation.stock_metrics_nonempty by discriminate.
    destruct (Stock.metrics_loop _ _ _ _ _) as [[[ti tc] hd]|e] eqn:Hloop.
    + discriminate.
    + apply StockValuation.stock_loop_raise in Hloop. subst e. discriminate.
  - intros fetch ledger Hp.
    destruct ledger as [|kv ledger]; [eexists; reflexivity|].
    rewrite StockValuation.stock_metrics_nonempty by discriminate.
    destruct (StockValuation.stock_loop_ok _ (kv :: ledger) 0 0 Dict.empty Hp)
      as [[[ti tc] hd] ->].
    eexists; reflexivity.
  - intros fetch ledger s.
    destruct ledger as [|kv ledger]; [discriminate|].
    rewrite StockValuation.stock_metrics_nonempty by discriminate.
    destruct (Stock.metrics_loop _ _ _ _ _) as [[[ti tc] hd]|e] eqn:Hloop;
      [|discriminate].
    cbn [bind]. intros [= <-]. simpl. split.
    + apply StockValuation.stock_loop_consistent in Hloop; [|constructor].
      eapply Forall_impl; [|exact Hloop].
      intros d (_ & _ & _ & Hglp) Hz. cbv zeta in Hglp.
      rewrite Hglp. apply percent_zero_denominator, Hz.
    + apply percent_zero_denominator.
  - intros ledger.
    destruct (FundValuation.fund_metrics_shape ledger)
      as (ti & tc & hd & Hloop & ->).
    eexists. split; [reflexivity|]. simpl. split.
    + apply FundValuation.fund_loop_consistent in Hloop; [|constructor].
      eapply Forall_impl; [|exact Hloop].
      intros d (_ & _ & Hglp) Hz. cbv zeta in Hglp.
      rewrite Hglp. apply percent_zero_denominator, Hz.
    + apply percent_zero_denominator.
Qed.

(** A ledger holding a position of quantity 0 next to an ordinary one. *)
Lemma zero_denominator_guards_witness :
  let ledger := Stock.add_stock one_stock "IDLE.NS" 0 1800 "2023-06-10" in
  quotes_priced (no_quotes (Dict.keys ledger))
  /\ (exists m, Stock.calculate_portfolio_metrics no_quotes ledger = Ok m)
  /\ (forall s,
        Stock.calculate_portfolio_metrics no_quotes ledger = Ok (Stock.Metrics s) ->
        Forall (fun d => Stock.Detail.invested_value d == 0 ->
                         Stock.Detail.gain_loss_percent d = 0)
          (Dict.values (Stock.Summary.holdings s))
        /\ (Stock.Summary.total_invested s == 0 ->
            Stock.Summary.total_gain_loss_percent s = 0)).
Proof.
  cbv zeta.
  assert (Hp : quotes_priced
                 (no_quotes
                    (Dict.keys
                       (Stock.add_stock one_stock "IDLE.NS" 0 1800 "2023-06-10"))))
    by constructor.
  split; [exact Hp|]. split.
  - exact (proj1 (proj2 (proj2 zero_denominator_guards)) no_quotes _ Hp).
  - exact (proj1 (proj2 (proj2 (proj2 zero_denominator_guards))) no_quotes _).
Defined.

(** C9.  The totals of a valuation are the sums over its positions.  On
    a ledger that holds something and whose quotes all carry a price, the
    equity valuation returns a summary; whenever it returns a summary,
    that summary has one entry per ledger key, its total_current is the
    sum of the entries' current_value and its total_invested the sum of
    their invested_value.  The fund valuation always returns a summary
    with the same properties, over current_value and amount_invested. *)
Theorem totals_are_position_sums :
  (forall fetch ledger,
      ledger <> [] ->
      quotes_priced (fetch (Dict.keys ledger)) ->
      exists s,
        Stock.calculate_portfolio_metrics fetch ledger = Ok (Stock.Metrics s))
  /\
  (forall fetch ledger s,
      Dict.wf ledger ->
      Stock.calculate_portfolio_metrics fetch ledger = Ok (Stock.Metrics s) ->
      let entries := Dict.values (Stock.Summary.holdings s) in
      Dict.keys (Stock.Summary.holdings s) = Dict.keys ledger
      /\ Stock.Summary.total_current s
         == Qsum (map Stock.Detail.current_value entries)
      /\ Stock.Summary.total_invested s
         == Qsum (map Stock.Detail.invested_value entries))
  /\
  (forall ledger,
      Dict.wf ledger ->
      exists s,
        Fund.calculate_portfolio_metrics ledger = Ok s
        /\ Dict.keys (Fund.Summary.holdings s) = Dict.keys ledger
        /\ Fund.Summary.total_current s
           == Qsum (map Fund.Detail.current_value
                      (Dict.values (Fund.Summary.holdings s)))
        /\ Fund.Summary.total_invested s
           == Qsum (map Fund.Detail.amount_invested
                      (Dict.values (Fund.Summary.holdings s)))).
Proof.
  split; [|split].
  - intros fetch ledger Hne Hp.
    rewrite StockValuation.stock_metrics_nonempty by assumption.
    destruct (StockValuation.stock_loop_ok _ ledger 0 0 Dict.empty Hp)
      as [[[ti tc] hd] ->].
    eexists; reflexivity.
  - intros fetch ledger s Hwf.
    destruct ledger as [|kv ledger]; [discriminate|].
    rewrite StockValuation.stock_metrics_nonempty by discriminate.
    destruct (Stock.metrics_loop _ _ _ _ _) as [[[ti tc] hd]|e] eqn:Hloop;
      [|discriminate].
    cbn [bind]. intros [= <-]. cbv zeta. simpl.
    apply StockValuation.stock_loop_sums in Hloop;
      [|exact Hwf | intros k _ []].
    destruct Hloop as (Hk & Hi & Hc). simpl in Hk, Hi, Hc.
    split; [exact Hk|]. split; lra.
  - intros ledger Hwf.
    destruct (FundValuation.fund_metrics_shape ledger)
      as (ti & tc & hd & Hloop & ->).
    eexists. split; [reflexivity|]. simpl.
    apply FundValuation.fund_loop_sums in Hloop;
      [|exact Hwf | intros k _ []].
    destruct Hloop as (Hk & Hi & Hc). simpl in Hk, Hi, Hc.
    split; [exact Hk|]. split; lra.
Qed.

Lemma totals_are_position_sums_witness :
  exists s,
    Stock.calculate_portfolio_metrics no_quotes two_stocks = Ok (Stock.Metrics s)
    /\ Dict.keys (Stock.Summary.holdings s) = Dict.keys two_stocks
    /\ Stock.Summary.total_current s
       == Qsum (map Stock.Detail.current_value
                  (Dict.values (Stock.Summary.holdings s)))
    /\ Stock.Summary.total_invested s
       == Qsum (map Stock.Detail.invested_value
                  (Dict.values (Stock.Summary.holdings s))).
Proof.
  assert (Hne : two_stocks <> []) by discriminate.
  assert (Hp : quotes_priced (no_quotes (Dict.keys two_stocks))) by constructor.
  assert (Hwf : Dict.wf two_stocks).
  { unfold Dict.wf. simpl. repeat constructor; simpl; intuition discriminate. }
  destruct (proj1 totals_are_position_sums no_quotes two_stocks Hne Hp)
    as [s Hs].
  exists s. split; [exact Hs|].
  exact (proj1 (proj2 totals_are_position_sums) no_quotes two_stocks s Hwf Hs).
Defined.

(** C10.  On an empty ledger the equity valuation returns the empty
    dictionary, which has no total at all, while the fund valuation
    returns a summary whose four totals are 0 and whose holdings are
    empty. *)
Theorem empty_ledger_shapes :
  (forall fetch,
      Stock.calculate_portfolio_metrics fetch Stock.init = Ok Stock.EmptyMetrics)
  /\
  (exists s,
      Fund.calculate_portfolio_metrics Fund.init = Ok s
      /\ Fund.Summary.total_invested s = 0
      /\ Fund.Summary.total_current s = 0
      /\ Fund.Summary.total_gain_loss s = 0
      /\ Fund.Summary.total_gain_loss_percent s = 0
      /\ Fund.Summary.holdings s = Dict.empty).
Proof.
  split.
  - intro fetch. reflexivity.
  - eexists. split; [reflexivity|]. repeat split.
Qed.

End Valuation.

(* ------------------------------------------------------------------ *)
(** ** The SIP simulation *)

Module SipSimulation.

Import MutualFundService.

Lemma nth_error_skipn {A : Type} (xs : list A) : forall i a,
  nth_error xs i = Some a -> skipn i xs = a :: skipn (S i) xs.
Proof.
  induction xs as [|x xs IH]; intros [|i] a H; simpl in *; try discriminate.
  - now injection H as ->.
  - apply IH. assumption.
Qed.

(** Over indices inside the series and NAVs other than 0 the loop adds
    one purchase per index. *)
Lemma sip_loop_seq nav_history c : forall n a units,
  (a + n <= List.length nav_history)%nat ->
  Forall (fun entry => ~ NavEntry.nav entry == 0) nav_history ->
  exists units',
    sip_loop nav_history c (seq a n) units = Ok units'
    /\ units' == units + sip_units (skipn a nav_history) c n.
Proof.
  induction n as [|n IH]; intros a units Hlen Hnz.
  - exists units. split; [reflexivity|].
    unfold sip_units. simpl. ring.
  - simpl seq. cbn [sip_loop].
    destruct (nth_error nav_history a) as [entry|] eqn:Hnth.
    2:{ apply nth_error_None in Hnth. lia. }
    unfold pyindex. rewrite Hnth. cbn [bind].
    assert (Hentry : ~ NavEntry.nav entry == 0).
    { rewrite Forall_forall in Hnz. apply Hnz.
      eapply nth_error_In; eassumption. }
    rewrite pydiv_ok by assumption. cbn [bind].
    destruct (IH (S a) (units + c / NavEntry.nav entry)) as (u' & Hu' & Heq);
      [lia | assumption |].
    exists u'. split; [assumption|].
    rewrite Heq. unfold sip_units.
    rewrite (nth_error_skipn _ _ _ Hnth). simpl. ring.
Qed.

Lemma Forall_firstn_of {A : Type} (P : A -> Prop) (xs : list A) : forall n,
  Forall P xs -> Forall P (firstn n xs).
Proof.
  induction xs as [|x xs IH]; intros [|n] H; simpl; try constructor.
  - inversion H; assumption.
  - inversion H; auto.
Qed.

Lemma Qsum_pos (xs : list Q) :
  xs <> [] -> Forall (fun x => 0 < x) xs -> 0 < Qsum xs.
Proof.
  induction xs as [|x xs IH]; [congruence|].
  intros _ Hall. inversion Hall as [|? ? Hx Hxs]; subst. simpl.
  destruct xs as [|y ys].
  - simpl. lra.
  - assert (0 < Qsum (y :: ys)) by (apply IH; [discriminate | assumption]).
    lra.
Qed.

Lemma sip_units_pos nav_history c n :
  nav_history <> [] -> (0 < n)%nat -> 0 < c ->
  Forall (fun entry => 0 < NavEntry.nav entry) nav_history ->
  0 < sip_units nav_history c n.
Proof.
  intros Hne Hn Hc Hnav. unfold sip_units. apply Qsum_pos.
  - destruct nav_history; [congruence|]. destruct n; [lia|]. discriminate.
  - apply Forall_map. eapply Forall_impl.
    2:{ apply Forall_firstn_of. exact Hnav. }
    intros entry He. simpl. apply Qlt_shift_div_l; [assumption | lra].
Qed.

Section Estimate.

Variable float_pow : Q -> Q -> pyresult Q.

Lemma estimate_xirr_guarded current_value total_invested months :
  total_invested == 0 \/ months = 0%Z ->
  _estimate_xirr float_pow current_value total_invested months = Ok 0.
Proof.
  intros H. unfold _estimate_xirr.
  destruct H as [H | ->].
  - apply Qeq_bool_iff in H. now rewrite H.
  - simpl. now rewrite orb_true_r.
Qed.

Lemma estimate_xirr_formula current_value total_invested months :
  ~ total_invested == 0 -> months <> 0%Z ->
  _estimate_xirr float_pow current_value total_invested months
  = (power <- float_pow (1 + (current_value - total_invested) / total_invested)
                (12 / inject_Z months) ;;
     Ok ((power - 1) * 100)).
Proof.
  intros Ht Hm. unfold _estimate_xirr.
  destruct (Qeq_bool total_invested 0) eqn:E.
  { apply Qeq_bool_eq in E. contradiction. }
  apply Z.eqb_neq in Hm. rewrite Hm. cbn [orb].
  rewrite pydiv_ok by assumption. cbn [bind].
  rewrite pydiv_ok; [reflexivity|].
  unfold Qeq. simpl. apply Z.eqb_neq in Hm. lia.
Qed.

End Estimate.

Section Simulation.

Variable get_nav : string -> list NavEntry.t.
Variable float_pow : Q -> Q -> pyresult Q.

(** With enough history, its first entry [newest] and no NAV equal to 0,
    the simulation gets as far as the annualised estimate with these
    figures. *)
Lemma sip_returns_shape scheme_code c months newest :
  let nav_history := get_nav scheme_code in
  (months <= Z.of_nat (List.length nav_history))%Z ->
  hd_error nav_history = Some newest ->
  Forall (fun entry => ~ NavEntry.nav entry == 0) nav_history ->
  exists units,
    units == sip_units nav_history c (Z.to_nat months)
    /\ calculate_sip_returns get_nav float_pow scheme_code c months
       = (let ti := c * inject_Z months in
          let cv := units * NavEntry.nav newest in
          x <- _estimate_xirr float_pow cv ti months ;;
          Ok (SipReturns
                (Sip.mk c ti units (NavEntry.nav newest) cv (cv - ti)
                   (percent (cv - ti) ti) x))).
Proof.
  cbv zeta. intros Hlen Hhd Hnz. unfold calculate_sip_returns.
  set (nav_history := get_nav scheme_code) in *.
  assert (Hltb : (Z.of_nat (List.length nav_history) <? months)%Z = false)
    by (apply Z.ltb_ge; assumption).
  rewrite Hltb.
  rewrite Z.min_l by assumption.
  destruct (sip_loop_seq nav_history c (Z.to_nat months) 0 0)
    as (units & Hloop & Hunits); [lia | assumption |].
  exists units. split.
  - rewrite Hunits. simpl skipn. ring.
  - rewrite Hloop. cbn [bind].
    assert (Hidx : pyindex nav_history 0 = Ok newest).
    { unfold pyindex. destruct nav_history; [discriminate|].
      simpl in *. now injection Hhd as ->. }
    rewrite Hidx. cbn [bind]. rewrite guarded_percent. reflexivity.
Qed.

End Simulation.

End SipSimulation.

(* ------------------------------------------------------------------ *)
(** ** The insufficient-history message *)

Lemma string_app_inv_head (p a b : string) :
  (p ++ a)%string = (p ++ b)%string -> a = b.
Proof.
  induction p as [|ch p IH]; simpl; intro H; [assumption|].
  injection H as H. auto.
Qed.

Lemma string_length_app (a b : string) :
  String.length (a ++ b) = (String.length a + String.length b)%nat.
Proof.
  induction a as [|ch a IH]; simpl; [reflexivity|]. now rewrite IH.
Qed.

Lemma string_app_inv_tail (s : string) : forall a b : string,
  (a ++ s)%string = (b ++ s)%string -> a = b.
Proof.
  induction a as [|ch a IH]; intros [|ch' b] H; simpl in H.
  - reflexivity.
  - apply (f_equal String.length) in H. simpl in H.
    rewrite string_length_app in H. lia.
  - apply (f_equal String.length) in H. simpl in H.
    rewrite string_length_app in H. lia.
  - injection H as -> H. f_equal. auto.
Qed.

Lemma str_of_nat_inj (n m : nat) : str_of_nat n = str_of_nat m -> n = m.
Proof.
  unfold str_of_nat. intro H.
  apply (f_equal NilEmpty.uint_of_string) in H.
  rewrite !NilEmpty.usu in H. injection H as H.
  apply DecimalNat.Unsigned.to_uint_inj. assumption.
Qed.

(** The message determines the count it was built from. *)
Lemma insufficient_data_inj (n m : nat) :
  MutualFundService.insufficient_data n = MutualFundService.insufficient_data m ->
  n = m.
Proof.
  unfold MutualFundService.insufficient_data. intro H.
  apply string_app_inv_head in H.
  apply string_app_inv_tail in H.
  apply str_of_nat_inj. assumption.
Qed.

(* ------------------------------------------------------------------ *)
(** ** Returns: the SIP claims *)

Module Returns.

Import MutualFundService.

(** C4.  When the NAV series is shorter than the requested number of
    periods, calculate_sip_returns returns (it does not raise) the error
    dictionary whose message is built from the number of entries the
    series has, and that message determines the number; no figure of a
    simulation is returned, whatever the NAVs, the contribution and the
    power operator are. *)
Theorem insufficient_history_reported :
  forall get_nav float_pow scheme_code monthly_amount months,
    (Z.of_nat (List.length (get_nav scheme_code)) < months)%Z ->
    let available := List.length (get_nav scheme_code) in
    calculate_sip_returns get_nav float_pow scheme_code monthly_amount months
    = Ok (SipError (insufficient_data available))
    /\ (forall n, insufficient_data n = insufficient_data available ->
                  n = available).
Proof.
  intros get_nav float_pow code c months Hlt. cbv zeta. split.
  - unfold calculate_sip_returns.
    apply Z.ltb_lt in Hlt. rewrite Hlt. reflexivity.
  - intros n. apply insufficient_data_inj.
Qed.

(** Four periods asked of the three-entry series. *)
Lemma insufficient_history_reported_witness :
  (Z.of_nat (List.length (sample_nav_history "119551")) < 4)%Z
  /\ calculate_sip_returns sample_nav_history integral_pow "119551" 1000 4
     = Ok (SipError "Insufficient data. Only 3 months available")
  /\ (forall n,
        insufficient_data n
        = insufficient_data (List.length (sample_nav_history "119551")) ->
        n = List.length (sample_nav_history "119551")).
Proof.
  assert (H : (Z.of_nat (List.length (sample_nav_history "119551")) < 4)%Z)
    by (simpl; lia).
  split; [exact H|].
  exact (insufficient_history_reported sample_nav_history integral_pow
           "119551"%string 1000 4%Z H).
Defined.

(** With no history at all and no period asked for, the length check
    passes and the code reads [nav_history[0]] of an empty list: the
    simulation needs a newest NAV. *)
Lemma no_history_and_no_period_raises :
  calculate_sip_returns no_nav_history integral_pow "119551" 1000 0
  = Raise IndexError.
Proof. reflexivity. Qed.

(** C5.  The annualised estimate is 0, without raising, when
    total_invested = 0 or months = 0; otherwise it is
    ((1 + r) ** (12 / months) - 1) * 100 with r = (current_value -
    total_invested) / total_invested, raising only if the power does.  In
    the result of a simulation, r is gain / total_invested for the gain
    and total_invested the result reports. *)
Theorem annualized_estimate_formula :
  forall float_pow,
    (forall current_value total_invested months,
        (total_invested == 0 \/ months = 0%Z ->
         _estimate_xirr float_pow current_value total_invested months = Ok 0)
        /\ (~ total_invested == 0 -> months <> 0%Z ->
            let r := (current_value - total_invested) / total_invested in
            _estimate_xirr float_pow current_value total_invested months
            = (power <- float_pow (1 + r) (12 / inject_Z months) ;;
               Ok ((power - 1) * 100))))
    /\
    (forall get_nav scheme_code monthly_amount months result,
        calculate_sip_returns get_nav float_pow scheme_code monthly_amount months
        = Ok (SipReturns result) ->
        let g := Sip.gain result in
        let t := Sip.total_invested result in
        (t == 0 \/ months = 0%Z -> Sip.xirr_estimate result = 0)
        /\ (~ t == 0 -> months <> 0%Z ->
            exists power,
              float_pow (1 + g / t) (12 / inject_Z months) = Ok power
              /\ Sip.xirr_estimate result = (power - 1) * 100)).
Proof.
  intro float_pow. split.
  - intros cv ti months. split.
    + apply SipSimulation.estimate_xirr_guarded.
    + intros Ht Hm. cbv zeta. apply SipSimulation.estimate_xirr_formula; assumption.
  - intros get_nav code c months result. unfold calculate_sip_returns.
    destruct (_ <? _)%Z; [discriminate|].
    destruct (sip_loop _ _ _ _) as [units|e]; [|discriminate]. cbn [bind].
    destruct (pyindex _ _) as [entry|e]; [|discriminate]. cbn [bind].
    rewrite guarded_percent. cbn [bind].
    destruct (_estimate_xirr _ _ _ _) as [x|e] eqn:Hx; [|discriminate].
    cbn [bind]. intros [= <-]. cbv zeta. simpl. split.
    + intro Hg. rewrite SipSimulation.estimate_xirr_guarded in Hx by assumption.
      now injection Hx as <-.
    + intros Ht Hm.
      rewrite SipSimulation.estimate_xirr_formula in Hx by assumption.
      destruct (float_pow _ _) as [power|e] eqn:Hp; [|discriminate].
      cbn [bind] in Hx. injection Hx as <-.
      exists power. split; reflexivity.
Qed.

(** One year, 3000 invested, 3300 held: the estimate is 10 percent. *)
Lemma annualized_estimate_formula_witness :
  (~ 3000 == 0) /\ 12%Z <> 0%Z
  /\ _estimate_xirr integral_pow 3300 3000 12
     = (power <- integral_pow (1 + (3300 - 3000) / 3000) (12 / inject_Z 12) ;;
        Ok ((power - 1) * 100))
  /\ _estimate_xirr integral_pow 3300 0 12 = Ok 0.
Proof.
  assert (Ht : ~ 3000 == 0) by discriminate.
  assert (Hm : 12%Z <> 0%Z) by discriminate.
  split; [exact Ht|]. split; [exact Hm|]. split.
  - exact (proj2 (proj1 (annualized_estimate_formula integral_pow) 3300 3000 12%Z)
             Ht Hm).
  - exact (proj1 (proj1 (annualized_estimate_formula integral_pow) 3300 0 12%Z)
             (or_introl (Qeq_refl 0))).
Defined.

Section Figures.

Variable float_pow : Q -> Q -> pyresult Q.

(** Python's float power of a positive base returns a float. *)
Hypothesis float_pow_positive_base :
  forall x y, 0 < x -> exists power, float_pow x y = Ok power.

(** On the simulator's inputs the annualised estimate is computed. *)
Lemma estimate_xirr_returns units newest_nav c months :
  0 <= c -> (0 <= months)%Z ->
  (0 < c -> (0 < months)%Z -> 0 < units) -> 0 < newest_nav ->
  exists x,
    _estimate_xirr float_pow (units * newest_nav) (c * inject_Z months) months
    = Ok x.
Proof.
  intros Hc Hm Hunits Hnav.
  destruct (Qeq_dec (c * inject_Z months) 0) as [Hz|Hnz].
  - exists 0. apply SipSimulation.estimate_xirr_guarded. now left.
  - assert (Hm0 : months <> 0%Z).
    { intros ->. apply Hnz. ring. }
    assert (Hc0 : ~ c == 0).
    { intro E. apply Hnz. rewrite E. ring. }
    assert (Hcpos : 0 < c) by lra.
    assert (Hmpos : (0 < months)%Z) by lia.
    assert (HmQ : 0 < inject_Z months).
    { unfold Qlt. simpl. lia. }
    assert (Hti : 0 < c * inject_Z months)
      by (apply Qmult_lt_0_compat; assumption).
    assert (Hcv : 0 < units * newest_nav)
      by (apply Qmult_lt_0_compat; auto).
    rewrite SipSimulation.estimate_xirr_formula by assumption.
    destruct (float_pow_positive_base
                (1 + (units * newest_nav - c * inject_Z months)
                     / (c * inject_Z months))
                (12 / inject_Z months)) as [power ->].
    + setoid_replace
        (1 + (units * newest_nav - c * inject_Z months) / (c * inject_Z months))
        with (units * newest_nav / (c * inject_Z months))
        by (field; repeat split; lra).
      apply Qlt_shift_div_l; [assumption | lra].
    + eexists. reflexivity.
Qed.




End Figures.

Lemma integral_pow_positive_base (x y : Q) :
  0 < x -> exists power, integral_pow x y = Ok power.
Proof.
  intro Hx. unfold integral_pow.
  destruct (Qeq_bool x 0) eqn:E.
  - apply Qeq_bool_eq in E. lra.
  - eexists. reflexivity.
Qed.



End Returns.

(* ------------------------------------------------------------------ *)
(** ** Net worth *)

Module NetWorthAggregation.

Import FinanceTrackerDashboard.

(** Once both valuations have returned, so does the aggregation. *)
Lemma get_net_worth_shape fetch stock_ledger fund_ledger stock_metrics fund_metrics :
  Stock.calculate_portfolio_metrics fetch stock_ledger = Ok stock_metrics ->
  Fund.calculate_portfolio_metrics fund_ledger = Ok fund_metrics ->
  get_net_worth fetch stock_ledger fund_ledger
  = (let s := Stock.get_total_current stock_metrics in
     let m := Fund.Summary.total_current fund_metrics in
     let total := 0 + s + m in
     Ok (NetWorth.mk 0 s m total
           (AssetAllocation.mk (percent 0 total) (percent s total)
              (percent m total)))).
Proof.
  intros Hs Hm. unfold get_net_worth. rewrite Hs. cbn [bind].
  rewrite Hm. cbn [bind]. rewrite !guarded_percent. reflexivity.
Qed.

(** C7.  With the equity valuation returning current value s >= 0 and
    the fund valuation m >= 0, get_net_worth returns its bank balance b
    (the constant 0), s and m, total_net_worth = b + s + m, and for each
    class allocation_percent = class value / total_net_worth * 100, or 0
    for all three when total_net_worth = 0.  Whenever s = 50000 and
    m = 30000 the total is 80000 and the percentages are 62.5 for stocks,
    37.5 for funds and 0 for the bank. *)
Theorem net_worth_allocation :
  forall fetch stock_ledger fund_ledger stock_metrics fund_metrics,
    Stock.calculate_portfolio_metrics fetch stock_ledger = Ok stock_metrics ->
    Fund.calculate_portfolio_metrics fund_ledger = Ok fund_metrics ->
    let s := Stock.get_total_current stock_metrics in
    let m := Fund.Summary.total_current fund_metrics in
    0 <= s -> 0 <= m ->
    exists nw,
      get_net_worth fetch stock_ledger fund_ledger = Ok nw
      /\ let b := NetWorth.bank_balance nw in
         let total := NetWorth.total_net_worth nw in
         let allocation := NetWorth.asset_allocation nw in
         b = 0
         /\ NetWorth.stock_portfolio_value nw = s
         /\ NetWorth.mf_portfolio_value nw = m
         /\ total = b + s + m
         /\ (~ total == 0 ->
             AssetAllocation.bank_percent allocation = b / total * 100
             /\ AssetAllocation.stocks_percent allocation = s / total * 100
             /\ AssetAllocation.mf_percent allocation = m / total * 100)
         /\ (total == 0 ->
             AssetAllocation.bank_percent allocation = 0
             /\ AssetAllocation.stocks_percent allocation = 0
             /\ AssetAllocation.mf_percent allocation = 0)
         /\ (s == 50000 -> m == 30000 ->
             total == 80000
             /\ AssetAllocation.stocks_percent allocation == 62.5
             /\ AssetAllocation.mf_percent allocation == 37.5
             /\ AssetAllocation.bank_percent allocation == 0).
Proof.
  intros fetch stock_ledger fund_ledger stock_metrics fund_metrics Hs Hm s m
    Hs0 Hm0.
  rewrite (get_net_worth_shape _ _ _ _ _ Hs Hm). fold s m. cbv zeta.
  eexists. split; [reflexivity|]. simpl.
  do 4 (split; [reflexivity|]).
  split; [|split].
  - intro Hnz. assert (Hpos : 0 < 0 + s + m) by lra.
    rewrite !percent_pos by assumption. repeat split.
  - intro Hz. assert (Hle : 0 + s + m <= 0) by lra.
    rewrite !percent_nonpos by assumption. repeat split.
  - intros Es Em.
    assert (Htotal : 0 + s + m == 80000) by (rewrite Es, Em; reflexivity).
    assert (Hpos : 0 < 0 + s + m) by (rewrite Htotal; reflexivity).
    rewrite !percent_pos by assumption.
    rewrite Htotal, Es, Em. repeat split.
Qed.

(** The specification's example: 50000 in equities, 30000 in funds. *)
Lemma net_worth_allocation_witness :
  exists stock_metrics fund_metrics nw,
    Stock.calculate_portfolio_metrics no_quotes stocks_worth_50000
    = Ok stock_metrics
    /\ Fund.calculate_portfolio_metrics funds_worth_30000 = Ok fund_metrics
    /\ Stock.get_total_current stock_metrics == 50000
    /\ Fund.Summary.total_current fund_metrics == 30000
    /\ get_net_worth no_quotes stocks_worth_50000 funds_worth_30000 = Ok nw
    /\ NetWorth.bank_balance nw = 0
    /\ NetWorth.total_net_worth nw == 80000
    /\ AssetAllocation.stocks_percent (NetWorth.asset_allocation nw) == 62.5
    /\ AssetAllocation.mf_percent (NetWorth.asset_allocation nw) == 37.5
    /\ AssetAllocation.bank_percent (NetWorth.asset_allocation nw) == 0.
Proof.
  pose (stock_metrics :=
          Stock.Metrics
            (Stock.Summary.mk (0 + 2500 * 20) (0 + 2500 * 20)
               (0 + 2500 * 20 - (0 + 2500 * 20))
               (percent (0 + 2500 * 20 - (0 + 2500 * 20)) (0 + 2500 * 20))
               [("RELIANCE.NS"%string,
                 Stock.Detail.mk 20 2500 2500 (2500 * 20) (2500 * 20)
                   (2500 * 20 - 2500 * 20)
                   (percent (2500 * 20 - 2500 * 20) (2500 * 20))
                   (percent (2500 * 20) (0 + 2500 * 20)))])).
  pose (fund_metrics :=
          Fund.Summary.mk (0 + 25000) (0 + 300 * 100)
            (0 + 300 * 100 - (0 + 25000))
            (percent (0 + 300 * 100 - (0 + 25000)) (0 + 25000))
            [("119551"%string,
              Fund.Detail.mk 300 100 25000 (300 * 100) (300 * 100 - 25000)
                (percent (300 * 100 - 25000) 25000))]).
  assert (Hs : Stock.calculate_portfolio_metrics no_quotes stocks_worth_50000
               = Ok stock_metrics) by (vm_compute; reflexivity).
  assert (Hm : Fund.calculate_portfolio_metrics funds_worth_30000
               = Ok fund_metrics) by (vm_compute; reflexivity).
  assert (Hs0 : 0 <= Stock.get_total_current stock_metrics) by discriminate.
  assert (Hm0 : 0 <= Fund.Summary.total_current fund_metrics) by discriminate.
  assert (Es : Stock.get_total_current stock_metrics == 50000) by reflexivity.
  assert (Em : Fund.Summary.total_current fund_metrics == 30000) by reflexivity.
  destruct (net_worth_allocation no_quotes stocks_worth_50000 funds_worth_30000
              stock_metrics fund_metrics Hs Hm Hs0 Hm0)
    as (nw & Hnw & Hb & _ & _ & _ & _ & _ & Hex).
  destruct (Hex Es Em) as (Ht & Hsp & Hmp & Hbp).
  exists stock_metrics, fund_metrics, nw.
  repeat (split; [assumption|]). assumption.
Defined.

End NetWorthAggregation.

(* ------------------------------------------------------------------ *)
(** ** Ledger operations *)

Module LedgerOperations.

(** X1.  Adding a ticker the ledger does not hold appends it: the
    ledger then maps the ticker to the new holding, lists it after the
    keys it had, and maps every other ticker to what it did before. *)
Theorem add_stock_new_ticker :
  forall ledger ticker quantity purchase_price purchase_date other,
    ~ In ticker (Dict.keys ledger) ->
    other <> ticker ->
    let ledger' :=
      Stock.add_stock ledger ticker quantity purchase_price purchase_date in
    Dict.get ticker ledger'
      = Some (Stock.Holding.mk quantity purchase_price purchase_date None)
    /\ Dict.keys ledger' = Dict.keys ledger ++ [ticker]
    /\ Dict.get other ledger' = Dict.get other ledger.
Proof.
  intros ledger ticker q p d other Hnin Hne. cbv zeta. unfold Stock.add_stock.
  split; [apply dict_get_set_same|]. split.
  - rewrite dict_set_fresh by assumption.
    unfold Dict.keys. rewrite map_app. reflexivity.
  - apply dict_get_set_other. assumption.
Qed.

Lemma add_stock_new_ticker_witness :
  ~ In "TCS.NS"%string (Dict.keys one_stock)
  /\ "RELIANCE.NS"%string <> "TCS.NS"%string
  /\ Dict.get "TCS.NS" two_stocks
     = Some (Stock.Holding.mk 5 3500 "2023-03-20" None)
  /\ Dict.keys two_stocks = Dict.keys one_stock ++ ["TCS.NS"%string]
  /\ Dict.get "RELIANCE.NS" two_stocks = Dict.get "RELIANCE.NS" one_stock.
Proof.
  assert (Hnin : ~ In "TCS.NS"%string (Dict.keys one_stock)).
  { simpl. intros [H|[]]. discriminate. }
  assert (Hne : "RELIANCE.NS"%string <> "TCS.NS"%string) by discriminate.
  split; [exact Hnin|]. split; [exact Hne|].
  exact (add_stock_new_ticker one_stock "TCS.NS"%string 5 3500
           "2023-03-20"%string "RELIANCE.NS"%string Hnin Hne).
Defined.

Lemma add_stocks_get ticker : forall calls ledger,
  Dict.get ticker (add_stocks ledger calls)
  = match last_add ticker calls with
    | Some call => Some (holding_of_add call)
    | None => Dict.get ticker ledger
    end.
Proof.
  unfold add_stocks, last_add.
  induction calls as [|call calls IH] using rev_ind; intros ledger.
  - reflexivity.
  - rewrite !fold_left_app. simpl. unfold Stock.add_stock at 1.
    destruct (String.eqb_spec ticker (StockAdd.ticker call)) as [->|Hne].
    + apply dict_get_set_same.
    + rewrite dict_get_set_other by assumption. apply IH.
Qed.

Lemma add_stocks_wf : forall calls ledger,
  Dict.wf ledger -> Dict.wf (add_stocks ledger calls).
Proof.
  unfold add_stocks.
  induction calls as [|call calls IH]; intros ledger Hwf; simpl.
  - assumption.
  - apply IH. apply StockLedger.add_stock_wf. assumption.
Qed.

(** X2.  After any sequence of add_stock calls on an empty ledger, the
    ledger holds each key once, and looking a ticker up gives what the
    last call naming it stored, or nothing when no call named it. *)
Theorem add_stocks_last_write_wins :
  forall calls ticker,
    let ledger := add_stocks Stock.init calls in
    Dict.wf ledger
    /\ Dict.get ticker ledger = option_map holding_of_add (last_add ticker calls).
Proof.
  intros calls ticker. cbv zeta. split.
  - apply add_stocks_wf, StockLedger.init_wf.
  - rewrite add_stocks_get. destruct (last_add ticker calls); reflexivity.
Qed.

End LedgerOperations.

(* ------------------------------------------------------------------ *)
(** ** More on the valuation loops *)

Module ValuationDetails.

(** The floor of the guarded percentage does not see which
    representative of a denominator it is given. *)
Lemma percent_compat (a a' b b' : Q) :
  a == a' -> b == b' -> percent a b == percent a' b'.
Proof.
  intros Ha Hb. unfold percent.
  assert (Hg : Qgtb b 0 = Qgtb b' 0).
  { unfold Qgtb. now rewrite Hb. }
  rewrite Hg. destruct (Qgtb b' 0); [|reflexivity].
  rewrite Ha, Hb. reflexivity.
Qed.

(** Any property of the stored entries that each turn establishes holds
    of every entry at the end. *)
Lemma stock_loop_Forall (P : Stock.Detail.t -> Prop) prices :
  (forall ticker holding cp tc,
      Stock.lookup_price prices ticker (Stock.Holding.purchase_price holding)
      = Some cp ->
      let iv := Stock.Holding.purchase_price holding
                * Stock.Holding.quantity holding in
      let cv := cp * Stock.Holding.quantity holding in
      P (Stock.Detail.mk (Stock.Holding.quantity holding)
           (Stock.Holding.purchase_price holding) cp iv cv (cv - iv)
           (percent (cv - iv) iv) (percent cv (tc + cv)))) ->
  forall items ti tc hd ti' tc' hd',
    Forall P (Dict.values hd) ->
    Stock.metrics_loop prices items ti tc hd = Ok (ti', tc', hd') ->
    Forall P (Dict.values hd').
Proof.
  intros Hstep.
  induction items as [|[ticker holding] rest IH]; intros ti tc hd ti' tc' hd' Hhd.
  - simpl. intros [= <- <- <-]. assumption.
  - rewrite StockValuation.stock_loop_cons.
    destruct (Stock.lookup_price _ _ _) as [cp|] eqn:Hcp; [|discriminate].
    cbv zeta. apply IH.
    apply dict_values_set_Forall; [assumption|].
    apply (Hstep ticker holding cp tc Hcp).
Qed.

(** The loop fails exactly on a holding whose quote has no price. *)
Lemma stock_loop_raise_iff prices items : forall ti tc hd,
  (exists e, Stock.metrics_loop prices items ti tc hd = Raise e)
  <-> exists ticker holding,
        In (ticker, holding) items
        /\ Stock.lookup_price prices ticker
             (Stock.Holding.purchase_price holding) = None.
Proof.
  induction items as [|[ticker holding] rest IH]; intros ti tc hd.
  - simpl. split.
    + intros [e H]. discriminate.
    + intros (t & h & [] & _).
  - rewrite StockValuation.stock_loop_cons.
    destruct (Stock.lookup_price prices ticker _) as [cp|] eqn:Hcp.
    + cbv zeta. rewrite IH. split.
      * intros (t & h & Hin & Hnone). exists t, h. split; [now right | exact Hnone].
      * intros (t & h & [[= <- <-] | Hin] & Hnone); [congruence|].
        exists t, h. split; assumption.
    + split.
      * intros _. exists ticker, holding. split; [now left | exact Hcp].
      * intros _. exists TypeError. reflexivity.
Qed.

Lemma lookup_price_none prices ticker default :
  Stock.lookup_price prices ticker default = None
  <-> exists q, Dict.get ticker prices = Some q /\ Stock.Quote.price q = None.
Proof.
  unfold Stock.lookup_price.
  destruct (Dict.get ticker prices) as [q|]; split.
  - intro H. exists q. split; [reflexivity | exact H].
  - intros (q' & [= <-] & H). exact H.
  - discriminate.
  - intros (q' & H & _). discriminate.
Qed.

Lemma stock_valuation_outcomes :
  forall fetch ledger,
    let null_quote :=
      exists ticker holding q,
        In (ticker, holding) ledger
        /\ Dict.get ticker (fetch (Dict.keys ledger)) = Some q
        /\ Stock.Quote.price q = None in
    (null_quote ->
     Stock.calculate_portfolio_metrics fetch ledger = Raise TypeError)
    /\ (~ null_quote ->
        exists m, Stock.calculate_portfolio_metrics fetch ledger = Ok m).
Proof.
  intros fetch ledger. cbv zeta.
  destruct ledger as [|kv ledger].
  { split.
    - intros (t & h & q & [] & _).
    - intros _. eexists. reflexivity. }
  rewrite StockValuation.stock_metrics_nonempty by discriminate.
  set (prices := fetch (Dict.keys (kv :: ledger))).
  pose proof (stock_loop_raise_iff prices (kv :: ledger) 0 0 Dict.empty) as Hiff.
  split.
  - intros (t & h & q & Hin & Hq & Hnone).
    destruct (proj2 Hiff) as [e He].
    { exists t, h. split; [assumption|].
      apply lookup_price_none. exists q. split; assumption. }
    rewrite He. cbn [bind].
    apply StockValuation.stock_loop_raise in He. now subst e.
  - intros Hno.
    destruct (Stock.metrics_loop prices (kv :: ledger) 0 0 Dict.empty)
      as [[[ti tc] hd]|e] eqn:Hloop.
    + eexists. reflexivity.
    + exfalso. apply Hno.
      destruct (proj1 Hiff (ex_intro _ e eq_refl)) as (t & h & Hin & Hnone).
      apply lookup_price_none in Hnone. destruct Hnone as (q & Hq & Hp).
      exists t, h, q. repeat split; assumption.
Qed.

(** X3.  The equity valuation raises exactly when the quote returned
    for some held ticker carries a null price, and what it raises then is
    TypeError; in every other case it returns. *)
Theorem stock_valuation_fails_on_null_price :
  forall fetch ledger,
    let null_quote :=
      exists ticker holding q,
        In (ticker, holding) ledger
        /\ Dict.get ticker (fetch (Dict.keys ledger)) = Some q
        /\ Stock.Quote.price q = None in
    (null_quote ->
     Stock.calculate_portfolio_metrics fetch ledger = Raise TypeError)
    /\ (~ null_quote ->
        exists m, Stock.calculate_portfolio_metrics fetch ledger = Ok m).
Proof.
  exact stock_valuation_outcomes.
Qed.

Lemma stock_valuation_fails_on_null_price_witness :
  Stock.calculate_portfolio_metrics null_quote_for_reliance one_stock
  = Raise TypeError
  /\ exists m, Stock.calculate_portfolio_metrics no_quotes two_stocks = Ok m.
Proof.
  split.
  - apply (proj1 (stock_valuation_fails_on_null_price
                    null_quote_for_reliance one_stock)).
    exists "RELIANCE.NS"%string,
           (Stock.Holding.mk 10 2500 "2023-01-15" None),
           (Stock.Quote.mk None).
    repeat split. simpl. auto.
  - apply (proj2 (stock_valuation_fails_on_null_price no_quotes two_stocks)).
    intros (t & h & q & _ & Hq & _). discriminate.
Defined.

(** X4.  When no returned quote carries a null price, a held ticker
    quoted at price p is valued at p: the valuation returns a summary in
    which its current_price is p, its current_value is p * quantity, its
    gain_loss is (p - purchase_price) * quantity and its
    gain_loss_percent is that gain over the invested value, guarded. *)
Theorem quoted_price_valuation :
  forall fetch ledger ticker h q p,
    Dict.wf ledger ->
    quotes_priced (fetch (Dict.keys ledger)) ->
    Dict.get ticker ledger = Some h ->
    Dict.get ticker (fetch (Dict.keys ledger)) = Some q ->
    Stock.Quote.price q = Some p ->
    exists s d,
      Stock.calculate_portfolio_metrics fetch ledger = Ok (Stock.Metrics s)
      /\ Dict.get ticker (Stock.Summary.holdings s) = Some d
      /\ Stock.Detail.current_price d = p
      /\ Stock.Detail.current_value d = p * Stock.Holding.quantity h
      /\ Stock.Detail.gain_loss d
         == (p - Stock.Holding.purchase_price h) * Stock.Holding.quantity h
      /\ Stock.Detail.gain_loss_percent d
         = percent (Stock.Detail.gain_loss d)
             (Stock.Holding.purchase_price h * Stock.Holding.quantity h).
Proof.
  intros fetch ledger ticker h q p Hwf Hp Hget Hq Hprice.
  assert (Hne : ledger <> []) by (intros ->; discriminate).
  rewrite (StockValuation.stock_metrics_nonempty fetch ledger Hne).
  destruct (StockValuation.stock_loop_ok (fetch (Dict.keys ledger)) ledger
              0 0 Dict.empty Hp) as [[[ti tc] hd] Hloop].
  rewrite Hloop. cbn [bind].
  destruct (StockValuation.stock_loop_get _ _ _ _ _ _ _ _ ticker h Hwf
              (dict_get_in _ _ _ Hget) Hloop)
    as (d & Hd & Hlook & Hqty & Hpp & Hiv & Hcv & Hgl & Hglp).
  cbv zeta in Hiv, Hcv, Hgl, Hglp.
  unfold Stock.lookup_price in Hlook. rewrite Hq, Hprice in Hlook.
  injection Hlook as Hlook.
  exists (Stock.Summary.mk ti tc (tc - ti) (percent (tc - ti) ti) hd), d.
  split; [reflexivity|]. split; [exact Hd|].
  split; [symmetry; exact Hlook|].
  split; [rewrite Hcv, <- Hlook, Hqty; reflexivity|].
  split.
  - rewrite Hgl, Hcv, Hiv, <- Hlook, Hqty, Hpp. ring.
  - rewrite Hglp, Hiv, Hqty, Hpp. reflexivity.
Qed.

(** RELIANCE.NS, 10 shares bought at 2500 and quoted at 2600. *)
Lemma quoted_price_valuation_witness :
  exists s d,
    Stock.calculate_portfolio_metrics reliance_at_2600 one_stock
    = Ok (Stock.Metrics s)
    /\ Dict.get "RELIANCE.NS" (Stock.Summary.holdings s) = Some d
    /\ Stock.Detail.current_price d = 2600
    /\ Stock.Detail.current_value d = 2600 * 10
    /\ Stock.Detail.gain_loss d == (2600 - 2500) * 10
    /\ Stock.Detail.gain_loss_percent d
       = percent (Stock.Detail.gain_loss d) (2500 * 10).
Proof.
  refine (quoted_price_valuation reliance_at_2600 one_stock
            "RELIANCE.NS"%string
            (Stock.Holding.mk 10 2500 "2023-01-15" None)
            (Stock.Quote.mk (Some 2600)) 2600 _ _ _ _ _).
  - unfold Dict.wf. simpl. constructor; [simpl; tauto | constructor].
  - repeat constructor. discriminate.
  - reflexivity.
  - reflexivity.
  - reflexivity.
Defined.

(** Each turn divides by the total accumulated up to and including its
    own position. *)
Lemma stock_loop_allocations prices items : forall ti tc hd ti' tc' hd',
  NoDup (map fst items) ->
  (forall k, In k (map fst items) -> ~ In k (Dict.keys hd)) ->
  Stock.metrics_loop prices items ti tc hd = Ok (ti', tc', hd') ->
  exists added,
    hd' = hd ++ added
    /\ forall j d,
         nth_error (Dict.values added) j = Some d ->
         Stock.Detail.allocation_percent d
         == percent (Stock.Detail.current_value d)
              (tc + Qsum (map Stock.Detail.current_value
                            (firstn (S j) (Dict.values added)))).
Proof.
  induction items as [|[ticker holding] rest IH];
    intros ti tc hd ti' tc' hd' Hnd Hfresh.
  - simpl. intros [= <- <- <-]. exists []. split; [now rewrite app_nil_r|].
    intros [|j] d; discriminate.
  - rewrite StockValuation.stock_loop_cons.
    destruct (Stock.lookup_price _ _ _) as [cp|]; [|discriminate].
    cbv zeta. intro Hloop.
    inversion Hnd as [|? ? Hnin Hnd']; subst.
    assert (Hf : ~ In ticker (Dict.keys hd)) by (apply Hfresh; simpl; auto).
    rewrite (dict_set_fresh hd ticker _ Hf) in Hloop.
    apply IH in Hloop; [|assumption|].
    + destruct Hloop as (added & -> & Halloc).
      eexists (_ :: added). split; [rewrite <- app_assoc; reflexivity|].
      unfold Dict.values in *.
      intros [|j] d Hd.
      * simpl in Hd. injection Hd as <-. simpl.
        apply percent_compat; [reflexivity | ring].
      * simpl in Hd. rewrite (Halloc j d Hd).
        apply percent_compat; [reflexivity|].
        rewrite map_cons, firstn_cons, map_cons. unfold Qsum.
        cbn [fold_right snd Stock.Detail.current_value]. ring.
    + intros k Hk. unfold Dict.keys. rewrite map_app. simpl.
      intro Hin. apply in_app_or in Hin. destruct Hin as [Hin | [<- | []]].
      * apply (Hfresh k); simpl; auto.
      * contradiction.
Qed.

(** X5.  In a summary the equity valuation returns, the
    allocation_percent of the position at place i is its current_value
    over the total of the current values of the positions at places 0
    to i (as a guarded percentage); for the last position that total is
    the portfolio's total_current. *)
Theorem allocation_over_running_total :
  forall fetch ledger s,
    Dict.wf ledger ->
    Stock.calculate_portfolio_metrics fetch ledger = Ok (Stock.Metrics s) ->
    let entries := Dict.values (Stock.Summary.holdings s) in
    (forall i d,
        nth_error entries i = Some d ->
        Stock.Detail.allocation_percent d
        == percent (Stock.Detail.current_value d)
             (Qsum (map Stock.Detail.current_value (firstn (S i) entries))))
    /\ (forall d,
          nth_error entries (List.length entries - 1) = Some d ->
          Stock.Detail.allocation_percent d
          == percent (Stock.Detail.current_value d)
               (Stock.Summary.total_current s)).
Proof.
  intros fetch ledger s Hwf.
  destruct ledger as [|kv ledger]; [discriminate|].
  rewrite StockValuation.stock_metrics_nonempty by discriminate.
  destruct (Stock.metrics_loop _ _ _ _ _) as [[[ti tc] hd]|e] eqn:Hloop;
    [|discriminate].
  cbn [bind]. intros [= <-]. cbv zeta. simpl.
  pose proof Hloop as Hsums.
  apply StockValuation.stock_loop_sums in Hsums;
    [|exact Hwf | intros k _ []].
  destruct Hsums as (_ & _ & Hc).
  apply stock_loop_allocations in Hloop; [|exact Hwf | intros k _ []].
  destruct Hloop as (added & -> & Halloc).
  change (Dict.empty ++ added) with added in *.
  change (Qsum (map Stock.Detail.current_value (Dict.values Dict.empty)))
    with 0 in Hc.
  assert (Hrun : forall i d,
    nth_error (Dict.values added) i = Some d ->
    Stock.Detail.allocation_percent d
    == percent (Stock.Detail.current_value d)
         (Qsum (map Stock.Detail.current_value
                  (firstn (S i) (Dict.values added))))).
  { intros i d Hd. rewrite (Halloc i d Hd).
    apply percent_compat; [reflexivity | ring]. }
  split; [exact Hrun|].
  intros d Hd. rewrite (Hrun _ d Hd).
  apply percent_compat; [reflexivity|].
  rewrite firstn_all2.
  - lra.
  - lia.
Qed.

Lemma allocation_over_running_total_witness :
  exists s,
    Stock.calculate_portfolio_metrics no_quotes two_stocks = Ok (Stock.Metrics s)
    /\ (forall i d,
          nth_error (Dict.values (Stock.Summary.holdings s)) i = Some d ->
          Stock.Detail.allocation_percent d
          == percent (Stock.Detail.current_value d)
               (Qsum (map Stock.Detail.current_value
                        (firstn (S i) (Dict.values (Stock.Summary.holdings s))))))
    /\ (forall d,
          nth_error (Dict.values (Stock.Summary.holdings s))
            (List.length (Dict.values (Stock.Summary.holdings s)) - 1) = Some d ->
          Stock.Detail.allocation_percent d
          == percent (Stock.Detail.current_value d)
               (Stock.Summary.total_current s)).
Proof.
  assert (Hwf : Dict.wf two_stocks).
  { unfold Dict.wf. simpl. repeat constructor; simpl; intuition discriminate. }
  destruct (Stock.calculate_portfolio_metrics no_quotes two_stocks)
    as [[|s]|e] eqn:Hs; try (vm_compute in Hs; discriminate).
  exists s. split; [reflexivity|].
  exact (allocation_over_running_total no_quotes two_stocks s Hwf Hs).
Defined.

Lemma percent_zero_numerator (a b : Q) : a == 0 -> percent a b == 0.
Proof.
  intro Ha. unfold percent. destruct (Qgtb b 0); [|reflexivity].
  rewrite Ha. unfold Qdiv. ring.
Qed.

(** Without a quote for any holding, each turn adds the same amount to
    both totals. *)
Lemma stock_loop_unquoted prices items : forall ti tc hd ti' tc' hd',
  (forall ticker holding,
      In (ticker, holding) items -> Dict.get ticker prices = None) ->
  Stock.metrics_loop prices items ti tc hd = Ok (ti', tc', hd') ->
  tc' - tc == ti' - ti.
Proof.
  induction items as [|[ticker holding] rest IH];
    intros ti tc hd ti' tc' hd' Hnone.
  - simpl. intros [= <- <- <-]. ring.
  - rewrite StockValuation.stock_loop_cons. unfold Stock.lookup_price.
    rewrite (Hnone ticker holding) by now left.
    cbv zeta. intro Hloop.
    apply IH in Hloop; [lra|].
    intros t h Hin. apply (Hnone t h). now right.
Qed.

Lemma stock_loop_unquoted_entries prices items : forall ti tc hd ti' tc' hd',
  (forall ticker holding,
      In (ticker, holding) items -> Dict.get ticker prices = None) ->
  Forall (fun d => Stock.Detail.current_price d = Stock.Detail.purchase_price d
                   /\ stock_detail_consistent d) (Dict.values hd) ->
  Stock.metrics_loop prices items ti tc hd = Ok (ti', tc', hd') ->
  Forall (fun d => Stock.Detail.current_price d = Stock.Detail.purchase_price d
                   /\ stock_detail_consistent d) (Dict.values hd').
Proof.
  induction items as [|[t h] rest IH]; intros ti tc hd ti' tc' hd' Hn Hhd.
  - simpl. intros [= <- <- <-]. assumption.
  - rewrite StockValuation.stock_loop_cons. unfold Stock.lookup_price.
    rewrite (Hn t h) by now left. cbv zeta. apply IH.
    + intros t' h' Hin. apply (Hn t' h'). now right.
    + apply dict_values_set_Forall; [assumption|]. repeat split.
Qed.

Lemma unquoted_valuation :
  forall fetch ledger,
    ledger <> [] ->
    (forall ticker holding,
        In (ticker, holding) ledger ->
        Dict.get ticker (fetch (Dict.keys ledger)) = None) ->
    exists s,
      Stock.calculate_portfolio_metrics fetch ledger = Ok (Stock.Metrics s)
      /\ Stock.Summary.total_current s == Stock.Summary.total_invested s
      /\ Stock.Summary.total_gain_loss s == 0
      /\ Stock.Summary.total_gain_loss_percent s == 0
      /\ Forall (fun d =>
                   Stock.Detail.current_price d = Stock.Detail.purchase_price d
                   /\ Stock.Detail.gain_loss d == 0
                   /\ Stock.Detail.gain_loss_percent d == 0)
           (Dict.values (Stock.Summary.holdings s)).
Proof.
  intros fetch ledger Hne Hnone.
  rewrite StockValuation.stock_metrics_nonempty by assumption.
  set (prices := fetch (Dict.keys ledger)) in *.
  destruct (Stock.metrics_loop prices ledger 0 0 Dict.empty)
    as [[[ti tc] hd]|e] eqn:Hloop.
  - cbn [bind]. eexists. split; [reflexivity|]. simpl.
    pose proof (stock_loop_unquoted _ _ _ _ _ _ _ _ Hnone Hloop) as Htot.
    split; [lra|]. split; [lra|].
    split; [apply percent_zero_numerator; lra|].
    eapply Forall_impl;
      [|exact (stock_loop_unquoted_entries prices ledger 0 0 Dict.empty _ _ _
                 Hnone (Forall_nil _) Hloop)].
    intros d (Hcp & Hiv & Hcv & Hgl & Hglp). cbv zeta in *.
    assert (Hz : Stock.Detail.gain_loss d == 0).
    { rewrite Hgl, Hcv, Hiv, Hcp. ring. }
    split; [exact Hcp|]. split; [exact Hz|].
    rewrite Hglp. apply percent_zero_numerator. exact Hz.
  - exfalso.
    destruct (proj1 (stock_loop_raise_iff prices ledger 0 0 Dict.empty)
                (ex_intro _ e Hloop)) as (t & h & Hin & Hl).
    unfold Stock.lookup_price in Hl. rewrite (Hnone t h Hin) in Hl. discriminate.
Qed.

(** X6.  When the provider returned a quote for none of the held
    tickers (a failed download, for one), the equity valuation of a
    ledger that holds something returns a summary showing no gain at
    all: total_current = total_invested, total_gain_loss = 0,
    total_gain_loss_percent = 0, and every position is priced at its
    purchase price with gain_loss = 0 and gain_loss_percent = 0. *)
Theorem unquoted_portfolio_shows_no_gain :
  forall fetch ledger,
    ledger <> [] ->
    (forall ticker holding,
        In (ticker, holding) ledger ->
        Dict.get ticker (fetch (Dict.keys ledger)) = None) ->
    exists s,
      Stock.calculate_portfolio_metrics fetch ledger = Ok (Stock.Metrics s)
      /\ Stock.Summary.total_current s == Stock.Summary.total_invested s
      /\ Stock.Summary.total_gain_loss s == 0
      /\ Stock.Summary.total_gain_loss_percent s == 0
      /\ Forall (fun d =>
                   Stock.Detail.current_price d = Stock.Detail.purchase_price d
                   /\ Stock.Detail.gain_loss d == 0
                   /\ Stock.Detail.gain_loss_percent d == 0)
           (Dict.values (Stock.Summary.holdings s)).
Proof.
  exact unquoted_valuation.
Qed.

Lemma unquoted_portfolio_shows_no_gain_witness :
  exists s,
    Stock.calculate_portfolio_metrics no_quotes two_stocks = Ok (Stock.Metrics s)
    /\ Stock.Summary.total_current s == Stock.Summary.total_invested s
    /\ Stock.Summary.total_gain_loss s == 0
    /\ Stock.Summary.total_gain_loss_percent s == 0
    /\ Forall (fun d =>
                 Stock.Detail.current_price d = Stock.Detail.purchase_price d
                 /\ Stock.Detail.gain_loss d == 0
                 /\ Stock.Detail.gain_loss_percent d == 0)
         (Dict.values (Stock.Summary.holdings s)).
Proof.
  apply (unquoted_portfolio_shows_no_gain no_quotes two_stocks).
  - discriminate.
  - intros ticker holding _. reflexivity.
Defined.

Lemma stock_gains_sum (ds : list Stock.Detail.t) :
  Forall stock_detail_consistent ds ->
  Qsum (map Stock.Detail.gain_loss ds)
  == Qsum (map Stock.Detail.current_value ds)
     - Qsum (map Stock.Detail.invested_value ds).
Proof.
  induction 1 as [|d ds (_ & _ & Hgl & _) _ IH]; simpl.
  - ring.
  - cbv zeta in Hgl. rewrite Hgl, IH. ring.
Qed.

Lemma fund_gains_sum (ds : list Fund.Detail.t) :
  Forall fund_detail_consistent ds ->
  Qsum (map Fund.Detail.gain_loss ds)
  == Qsum (map Fund.Detail.current_value ds)
     - Qsum (map Fund.Detail.amount_invested ds).
Proof.
  induction 1 as [|d ds (_ & Hgl & _) _ IH]; simpl.
  - ring.
  - cbv zeta in Hgl. rewrite Hgl, IH. ring.
Qed.

(** X7.  The portfolio gain is the sum of the positions' gains: in a
    summary the equity valuation returns, total_gain_loss equals the sum
    of the entries' gain_loss; the fund valuation always returns a
    summary with the same property. *)
Theorem total_gain_is_sum_of_gains :
  (forall fetch ledger s,
      Dict.wf ledger ->
      Stock.calculate_portfolio_metrics fetch ledger = Ok (Stock.Metrics s) ->
      Stock.Summary.total_gain_loss s
      == Qsum (map Stock.Detail.gain_loss
                 (Dict.values (Stock.Summary.holdings s))))
  /\
  (forall ledger,
      Dict.wf ledger ->
      exists s,
        Fund.calculate_portfolio_metrics ledger = Ok s
        /\ Fund.Summary.total_gain_loss s
           == Qsum (map Fund.Detail.gain_loss
                      (Dict.values (Fund.Summary.holdings s)))).
Proof.
  split.
  - intros fetch ledger s Hwf.
    destruct ledger as [|kv ledger]; [discriminate|].
    rewrite StockValuation.stock_metrics_nonempty by discriminate.
    destruct (Stock.metrics_loop _ _ _ _ _) as [[[ti tc] hd]|e] eqn:Hloop;
      [|discriminate].
    cbn [bind]. intros [= <-]. simpl.
    pose proof (StockValuation.stock_loop_consistent _ _ 0 0 Dict.empty _ _ _
                  (Forall_nil _) Hloop) as Hcons.
    apply StockValuation.stock_loop_sums in Hloop;
      [|exact Hwf | intros k _ []].
    destruct Hloop as (_ & Hi & Hc). simpl in Hi, Hc.
    rewrite (stock_gains_sum _ Hcons). lra.
  - intros ledger Hwf.
    destruct (FundValuation.fund_metrics_shape ledger)
      as (ti & tc & hd & Hloop & ->).
    eexists. split; [reflexivity|]. simpl.
    pose proof (FundValuation.fund_loop_consistent _ 0 0 Dict.empty _ _ _
                  (Forall_nil _) Hloop) as Hcons.
    apply FundValuation.fund_loop_sums in Hloop;
      [|exact Hwf | intros k _ []].
    destruct Hloop as (_ & Hi & Hc). simpl in Hi, Hc.
    rewrite (fund_gains_sum _ Hcons). lra.
Qed.

Lemma total_gain_is_sum_of_gains_witness :
  exists s,
    Stock.calculate_portfolio_metrics reliance_at_2600 two_stocks
    = Ok (Stock.Metrics s)
    /\ Stock.Summary.total_gain_loss s
       == Qsum (map Stock.Detail.gain_loss
                  (Dict.values (Stock.Summary.holdings s))).
Proof.
  assert (Hwf : Dict.wf two_stocks).
  { unfold Dict.wf. simpl. repeat constructor; simpl; intuition discriminate. }
  destruct (Stock.calculate_portfolio_metrics reliance_at_2600 two_stocks)
    as [[|s]|e] eqn:Hs; try (vm_compute in Hs; discriminate).
  exists s. split; [reflexivity|].
  exact (proj1 total_gain_is_sum_of_gains reliance_at_2600 two_stocks s Hwf Hs).
Defined.

(** X8.  A fund holding added while the NAV series has a newest entry
    is recorded with that entry's NAV, and the fund valuation of the
    resulting ledger returns a summary in which the holding has
    current_value = units * that NAV, gain_loss = current_value -
    amount_invested and gain_loss_percent = the guarded percentage of
    that gain over amount_invested. *)
Theorem add_holding_valued_at_newest_nav :
  forall get_nav now ledger scheme_code units amount_invested newest,
    Dict.wf ledger ->
    hd_error (get_nav scheme_code) = Some newest ->
    let ledger' :=
      Fund.add_holding get_nav now ledger scheme_code units amount_invested in
    Dict.get scheme_code ledger'
      = Some (Fund.Holding.mk units amount_invested (NavEntry.nav newest) now)
    /\ exists s d,
         Fund.calculate_portfolio_metrics ledger' = Ok s
         /\ Dict.get scheme_code (Fund.Summary.holdings s) = Some d
         /\ Fund.Detail.nav d = NavEntry.nav newest
         /\ Fund.Detail.current_value d = units * NavEntry.nav newest
         /\ Fund.Detail.gain_loss d
            = units * NavEntry.nav newest - amount_invested
         /\ Fund.Detail.gain_loss_percent d
            = percent (units * NavEntry.nav newest - amount_invested)
                amount_invested.
Proof.
  intros get_nav now ledger code units amt newest Hwf Hhd. cbv zeta.
  set (ledger' := Fund.add_holding get_nav now ledger code units amt).
  assert (Hget : Dict.get code ledger'
                 = Some (Fund.Holding.mk units amt (NavEntry.nav newest) now)).
  { unfold ledger', Fund.add_holding.
    destruct (get_nav code) as [|entry rest]; [discriminate|].
    simpl in Hhd. injection Hhd as ->. apply dict_get_set_same. }
  split; [exact Hget|].
  destruct (FundValuation.fund_metrics_shape ledger')
    as (ti & tc & hd & Hloop & ->).
  assert (Hwf' : Dict.wf ledger') by (apply FundValuation.add_holding_wf, Hwf).
  destruct (FundValuation.fund_loop_get _ _ _ _ _ _ _ _ _ Hwf'
              (dict_get_in _ _ _ Hget) Hloop)
    as (d & Hd & Hu & Hn & Ha & Hcv & Hgl & Hglp).
  simpl in Hu, Hn, Ha. cbv zeta in Hcv, Hgl, Hglp.
  exists (Fund.Summary.mk ti tc (tc - ti) (percent (tc - ti) ti) hd), d.
  split; [reflexivity|]. split; [exact Hd|]. split; [exact Hn|].
  assert (Hcv' : Fund.Detail.current_value d = units * NavEntry.nav newest)
    by (rewrite Hcv, Hu, Hn; reflexivity).
  assert (Hgl' : Fund.Detail.gain_loss d = units * NavEntry.nav newest - amt)
    by (rewrite Hgl, Hcv', Ha; reflexivity).
  split; [exact Hcv'|]. split; [exact Hgl'|].
  rewrite Hglp, Hgl', Ha. reflexivity.
Qed.

(** 300 units bought for 25000, the newest NAV being 100. *)
Lemma add_holding_valued_at_newest_nav_witness :
  Dict.get "119551" funds_worth_30000
    = Some (Fund.Holding.mk 300 25000 100 sample_clock)
  /\ exists s d,
       Fund.calculate_portfolio_metrics funds_worth_30000 = Ok s
       /\ Dict.get "119551" (Fund.Summary.holdings s) = Some d
       /\ Fund.Detail.nav d = 100
       /\ Fund.Detail.current_value d = 300 * 100
       /\ Fund.Detail.gain_loss d = 300 * 100 - 25000
       /\ Fund.Detail.gain_loss_percent d = percent (300 * 100 - 25000) 25000.
Proof.
  refine (add_holding_valued_at_newest_nav nav_of_100 sample_clock Fund.init
            "119551"%string 300 25000 (NavEntry.mk "2024-03-01" 100) _ _).
  - constructor.
  - reflexivity.
Defined.

End ValuationDetails.

(* ------------------------------------------------------------------ *)
(** ** The price provider *)

Module PriceProvider.

Lemma fetch_loop_get lookup ticker : forall tickers prices,
  Dict.get ticker (Stock.fetch_loop lookup tickers prices)
  = if existsb (String.eqb ticker) tickers
    then match lookup ticker with
         | Ok price => Some (Stock.Quote.mk price)
         | Raise _ => Dict.get ticker prices
         end
    else Dict.get ticker prices.
Proof.
  induction tickers as [|t rest IH]; intros prices; [reflexivity|].
  cbn [Stock.fetch_loop existsb].
  destruct (String.eqb_spec ticker t) as [Heq|Hne]; cbn [orb].
  - subst t.
    destruct (lookup ticker) as [price|e] eqn:Hl; rewrite IH.
    + rewrite dict_get_set_same. now destruct (existsb _ rest).
    + now destruct (existsb _ rest).
  - destruct (lookup t) as [price|e]; rewrite IH.
    + rewrite dict_get_set_other by assumption. reflexivity.
    + reflexivity.
Qed.

Lemma fetch_loop_wf lookup : forall tickers prices,
  Dict.wf prices -> Dict.wf (Stock.fetch_loop lookup tickers prices).
Proof.
  induction tickers as [|t rest IH]; intros prices Hwf; simpl.
  - assumption.
  - destruct (lookup t); apply IH; [apply dict_wf_set|]; assumption.
Qed.

Lemma existsb_eqb_In ticker tickers :
  existsb (String.eqb ticker) tickers = true <-> In ticker tickers.
Proof.
  rewrite existsb_exists. split.
  - intros (t & Hin & Heq). apply String.eqb_eq in Heq. now subst.
  - intro Hin. exists ticker. split; [assumption | apply String.eqb_refl].
Qed.

(** What [fetch_current_prices] holds for a ticker. *)
Lemma fetch_current_prices_get download lookup tickers ticker :
  Dict.get ticker (Stock.fetch_current_prices download lookup tickers)
  = match download tickers, lookup ticker with
    | Ok _, Ok price =>
        if existsb (String.eqb ticker) tickers
        then Some (Stock.Quote.mk price) else None
    | _, _ => None
    end.
Proof.
  unfold Stock.fetch_current_prices.
  destruct (download tickers) as [u|e]; [|reflexivity].
  rewrite fetch_loop_get. simpl.
  destruct (lookup ticker); now destruct (existsb _ tickers).
Qed.

(** X9.  fetch_current_prices returns quotes for requested tickers
    only, each once: a requested ticker whose lookup returned is quoted
    with the current price the lookup read (None when the key was
    missing), a ticker whose lookup raised is left out, and when the
    download raised the dictionary is empty. *)
Theorem fetched_quotes :
  forall download lookup tickers,
    let prices := Stock.fetch_current_prices download lookup tickers in
    Dict.wf prices
    /\ ((exists e, download tickers = Raise e) -> prices = Dict.empty)
    /\ (forall ticker price,
          (exists u, download tickers = Ok u) ->
          In ticker tickers ->
          lookup ticker = Ok price ->
          Dict.get ticker prices = Some (Stock.Quote.mk price))
    /\ (forall ticker e,
          lookup ticker = Raise e -> Dict.get ticker prices = None)
    /\ (forall ticker,
          ~ In ticker tickers -> Dict.get ticker prices = None).
Proof.
  intros download lookup tickers. cbv zeta.
  split; [|split; [|split; [|split]]].
  - unfold Stock.fetch_current_prices.
    destruct (download tickers); [apply fetch_loop_wf|]; apply dict_wf_empty.
  - intros [e He]. unfold Stock.fetch_current_prices. now rewrite He.
  - intros ticker price [u Hu] Hin Hl.
    rewrite fetch_current_prices_get, Hu, Hl.
    apply existsb_eqb_In in Hin. now rewrite Hin.
  - intros ticker e Hl. rewrite fetch_current_prices_get, Hl.
    now destruct (download tickers).
  - intros ticker Hnin. rewrite fetch_current_prices_get.
    destruct (download tickers); [|reflexivity].
    destruct (lookup ticker); [|reflexivity].
    destruct (existsb _ tickers) eqn:E; [|reflexivity].
    apply existsb_eqb_In in E. contradiction.
Qed.

Lemma fetched_quotes_witness :
  let tickers := ["RELIANCE.NS"; "TCS.NS"; "INFY.NS"]%string in
  Stock.fetch_current_prices download_fails sample_lookup tickers = Dict.empty
  /\ Dict.get "RELIANCE.NS"
       (Stock.fetch_current_prices download_ok sample_lookup tickers)
     = Some (Stock.Quote.mk (Some 2600))
  /\ Dict.get "INFY.NS"
       (Stock.fetch_current_prices download_ok sample_lookup tickers)
     = None
  /\ Dict.get "HDFC.NS"
       (Stock.fetch_current_prices download_ok sample_lookup tickers)
     = None.
Proof.
  cbv zeta.
  pose (tickers := ["RELIANCE.NS"; "TCS.NS"; "INFY.NS"]%string).
  split; [|split; [|split]].
  - apply (proj1 (proj2 (fetched_quotes download_fails sample_lookup tickers))).
    exists OverflowError. reflexivity.
  - apply (proj1 (proj2 (proj2 (fetched_quotes download_ok sample_lookup tickers)))).
    + exists tt. reflexivity.
    + simpl. auto.
    + reflexivity.
  - apply (proj1 (proj2 (proj2 (proj2
             (fetched_quotes download_ok sample_lookup tickers))))
             "INFY.NS"%string IndexError).
    reflexivity.
  - apply (proj2 (proj2 (proj2 (proj2
             (fetched_quotes download_ok sample_lookup tickers))))).
    simpl. intuition discriminate.
Defined.

End PriceProvider.

(* ------------------------------------------------------------------ *)
(** ** Valuation through the price provider *)

Module ProvidedValuation.

(** X10.  With fetch_current_prices as the price provider, the equity
    valuation raises TypeError exactly when the download worked and the
    lookup of some held ticker returned without a current price; in
    every other case, a failed download and failed lookups included, it
    returns. *)
Theorem valuation_fails_on_missing_current_price :
  forall download lookup ledger,
    let fetch := Stock.fetch_current_prices download lookup in
    let missing :=
      (exists u, download (Dict.keys ledger) = Ok u)
      /\ exists ticker holding,
           In (ticker, holding) ledger /\ lookup ticker = Ok None in
    (missing ->
     Stock.calculate_portfolio_metrics fetch ledger = Raise TypeError)
    /\ (~ missing ->
        exists m, Stock.calculate_portfolio_metrics fetch ledger = Ok m).
Proof.
  intros download lookup ledger. cbv zeta.
  destruct (ValuationDetails.stock_valuation_outcomes
              (Stock.fetch_current_prices download lookup) ledger)
    as [Hraise Hok].
  split.
  - intros ([u Hu] & t & h & Hin & Hl). apply Hraise.
    exists t, h, (Stock.Quote.mk None). split; [assumption|]. split; [|reflexivity].
    rewrite PriceProvider.fetch_current_prices_get, Hu, Hl.
    assert (Hk : In t (Dict.keys ledger)) by (apply (in_map fst) in Hin; exact Hin).
    apply PriceProvider.existsb_eqb_In in Hk. now rewrite Hk.
  - intros Hmissing. apply Hok.
    intros (t & h & q & Hin & Hq & Hnone). apply Hmissing.
    rewrite PriceProvider.fetch_current_prices_get in Hq.
    destruct (download (Dict.keys ledger)) as [u|e]; [|discriminate].
    split; [exists u; reflexivity|].
    exists t, h. split; [assumption|].
    destruct (lookup t) as [price|e]; [|discriminate].
    destruct (existsb _ _); [|discriminate].
    injection Hq as <-. simpl in Hnone. now subst price.
Qed.

(** TCS.NS is looked up without a current price. *)
Lemma valuation_fails_on_missing_current_price_witness :
  Stock.calculate_portfolio_metrics
    (Stock.fetch_current_prices download_ok sample_lookup) two_stocks
  = Raise TypeError
  /\ exists m,
       Stock.calculate_portfolio_metrics
         (Stock.fetch_current_prices download_fails sample_lookup) two_stocks
       = Ok m.
Proof.
  split.
  - apply (proj1 (valuation_fails_on_missing_current_price
                    download_ok sample_lookup two_stocks)).
    split; [exists tt; reflexivity|].
    exists "TCS.NS"%string, (Stock.Holding.mk 5 3500 "2023-03-20" None).
    split; [simpl; auto | reflexivity].
  - apply (proj2 (valuation_fails_on_missing_current_price
                    download_fails sample_lookup two_stocks)).
    intros ([u Hu] & _). discriminate.
Defined.

(** X11.  With fetch_current_prices as the price provider, a failed
    download, or a failed lookup for every held ticker, goes unnoticed:
    the valuation of a ledger that holds something returns a summary
    with total_current = total_invested, total_gain_loss = 0 and
    total_gain_loss_percent = 0. *)
Theorem provider_failure_shows_no_gain :
  forall download lookup ledger,
    ledger <> [] ->
    (exists e, download (Dict.keys ledger) = Raise e)
    \/ (forall ticker holding,
          In (ticker, holding) ledger -> exists e, lookup ticker = Raise e) ->
    exists s,
      Stock.calculate_portfolio_metrics
        (Stock.fetch_current_prices download lookup) ledger
      = Ok (Stock.Metrics s)
      /\ Stock.Summary.total_current s == Stock.Summary.total_invested s
      /\ Stock.Summary.total_gain_loss s == 0
      /\ Stock.Summary.total_gain_loss_percent s == 0.
Proof.
  intros download lookup ledger Hne Hfail.
  destruct (ValuationDetails.unquoted_valuation
              (Stock.fetch_current_prices download lookup) ledger Hne)
    as (s & Hs & Htc & Hgl & Hglp & _).
  - intros t h Hin. rewrite PriceProvider.fetch_current_prices_get.
    destruct Hfail as [[e He] | Hall].
    + now rewrite He.
    + destruct (Hall t h Hin) as [e He]. rewrite He.
      now destruct (download _).
  - exists s. repeat split; assumption.
Qed.

Lemma provider_failure_shows_no_gain_witness :
  exists s,
    Stock.calculate_portfolio_metrics
      (Stock.fetch_current_prices download_fails sample_lookup) two_stocks
    = Ok (Stock.Metrics s)
    /\ Stock.Summary.total_current s == Stock.Summary.total_invested s
    /\ Stock.Summary.total_gain_loss s == 0
    /\ Stock.Summary.total_gain_loss_percent s == 0.
Proof.
  apply (provider_failure_shows_no_gain download_fails sample_lookup two_stocks).
  - discriminate.
  - left. exists OverflowError. reflexivity.
Defined.

End ProvidedValuation.

(* ------------------------------------------------------------------ *)
(** ** The dashboard *)

Module DashboardViews.

Import FinanceTrackerDashboard.

Lemma get_portfolio_performance_shape fetch stock_ledger fund_ledger
    stock_metrics fund_metrics :
  Stock.calculate_portfolio_metrics fetch stock_ledger = Ok stock_metrics ->
  Fund.calculate_portfolio_metrics fund_ledger = Ok fund_metrics ->
  get_portfolio_performance fetch stock_ledger fund_ledger
  = (let ti := Stock.get_total_invested stock_metrics
               + Fund.Summary.total_invested fund_metrics in
     let tc := Stock.get_total_current stock_metrics
               + Fund.Summary.total_current fund_metrics in
     Ok (Performance.mk ti tc (tc - ti) (percent (tc - ti) ti)
           stock_metrics fund_metrics)).
Proof.
  intros Hs Hm. unfold get_portfolio_performance. rewrite Hs. cbn [bind].
  rewrite Hm. cbn [bind]. rewrite guarded_percent. reflexivity.
Qed.

(** X12.  Unlike the per-position allocations of the equity valuation,
    the asset allocation of get_net_worth is taken over the final total:
    whenever the net worth is positive the three percentages add up to
    100. *)
Theorem asset_allocation_sums_to_100 :
  forall fetch stock_ledger fund_ledger stock_metrics fund_metrics,
    Stock.calculate_portfolio_metrics fetch stock_ledger = Ok stock_metrics ->
    Fund.calculate_portfolio_metrics fund_ledger = Ok fund_metrics ->
    0 < Stock.get_total_current stock_metrics
        + Fund.Summary.total_current fund_metrics ->
    exists nw,
      get_net_worth fetch stock_ledger fund_ledger = Ok nw
      /\ let allocation := NetWorth.asset_allocation nw in
         AssetAllocation.bank_percent allocation
         + AssetAllocation.stocks_percent allocation
         + AssetAllocation.mf_percent allocation == 100.
Proof.
  intros fetch sl fl sm fm Hs Hm Hpos.
  rewrite (NetWorthAggregation.get_net_worth_shape _ _ _ _ _ Hs Hm).
  cbv zeta. eexists. split; [reflexivity|]. simpl.
  set (s := Stock.get_total_current sm) in *.
  set (m := Fund.Summary.total_current fm) in *.
  rewrite !percent_pos by lra. field. lra.
Qed.

Lemma asset_allocation_sums_to_100_witness :
  exists nw,
    get_net_worth no_quotes stocks_worth_50000 funds_worth_30000 = Ok nw
    /\ AssetAllocation.bank_percent (NetWorth.asset_allocation nw)
       + AssetAllocation.stocks_percent (NetWorth.asset_allocation nw)
       + AssetAllocation.mf_percent (NetWorth.asset_allocation nw) == 100.
Proof.
  destruct (Stock.calculate_portfolio_metrics no_quotes stocks_worth_50000)
    as [sm|e] eqn:Hs; [|vm_compute in Hs; discriminate].
  destruct (Fund.calculate_portfolio_metrics funds_worth_30000)
    as [fm|e] eqn:Hm; [|vm_compute in Hm; discriminate].
  apply (asset_allocation_sums_to_100 no_quotes stocks_worth_50000
           funds_worth_30000 sm fm Hs Hm).
  vm_compute in Hs. injection Hs as <-.
  vm_compute in Hm. injection Hm as <-.
  reflexivity.
Defined.

(** X13.  Both dashboard views stand and fall with the equity
    valuation: they raise TypeError when the quote of some held ticker
    carries a null price, and return in every other case, whatever the
    fund ledger holds. *)
Theorem dashboard_fails_on_null_price :
  forall fetch stock_ledger fund_ledger,
    let null_quote :=
      exists ticker holding q,
        In (ticker, holding) stock_ledger
        /\ Dict.get ticker (fetch (Dict.keys stock_ledger)) = Some q
        /\ Stock.Quote.price q = None in
    (null_quote ->
     get_net_worth fetch stock_ledger fund_ledger = Raise TypeError
     /\ get_portfolio_performance fetch stock_ledger fund_ledger
        = Raise TypeError)
    /\ (~ null_quote ->
        (exists nw, get_net_worth fetch stock_ledger fund_ledger = Ok nw)
        /\ (exists p,
              get_portfolio_performance fetch stock_ledger fund_ledger = Ok p)).
Proof.
  intros fetch sl fl. cbv zeta.
  destruct (ValuationDetails.stock_valuation_outcomes fetch sl)
    as [Hraise Hok].
  split.
  - intro Hnull. specialize (Hraise Hnull).
    unfold get_net_worth, get_portfolio_performance. rewrite Hraise.
    split; reflexivity.
  - intro Hnot. destruct (Hok Hnot) as [sm Hs].
    destruct (FundValuation.fund_metrics_shape fl)
      as (ti & tc & hd & _ & Hm).
    rewrite (NetWorthAggregation.get_net_worth_shape _ _ _ _ _ Hs Hm).
    rewrite (get_portfolio_performance_shape _ _ _ _ _ Hs Hm).
    split; eexists; reflexivity.
Qed.

Lemma dashboard_fails_on_null_price_witness :
  (get_net_worth null_quote_for_reliance one_stock fund_without_nav
   = Raise TypeError
   /\ get_portfolio_performance null_quote_for_reliance one_stock
        fund_without_nav
      = Raise TypeError)
  /\ (exists nw, get_net_worth no_quotes one_stock fund_without_nav = Ok nw)
  /\ (exists p,
        get_portfolio_performance no_quotes one_stock fund_without_nav = Ok p).
Proof.
  split.
  - apply (proj1 (dashboard_fails_on_null_price
                    null_quote_for_reliance one_stock fund_without_nav)).
    exists "RELIANCE.NS"%string,
           (Stock.Holding.mk 10 2500 "2023-01-15" None),
           (Stock.Quote.mk None).
    repeat split. simpl. auto.
  - apply (proj2 (dashboard_fails_on_null_price
                    no_quotes one_stock fund_without_nav)).
    intros (t & h & q & _ & Hq & _). discriminate.
Defined.

(** X14.  The combined performance adds up the two valuations: once
    both have returned, get_portfolio_performance returns total_invested
    and total_current as the sums of the equity and fund totals (an
    empty equity ledger counting for 0), a total_gain equal to the equity
    gain plus the fund gain, and the two summaries themselves; its
    total_current is the total_net_worth get_net_worth reports. *)
Theorem combined_performance_totals :
  forall fetch stock_ledger fund_ledger stock_metrics fund_metrics,
    Stock.calculate_portfolio_metrics fetch stock_ledger = Ok stock_metrics ->
    Fund.calculate_portfolio_metrics fund_ledger = Ok fund_metrics ->
    exists p nw,
      get_portfolio_performance fetch stock_ledger fund_ledger = Ok p
      /\ get_net_worth fetch stock_ledger fund_ledger = Ok nw
      /\ Performance.total_invested p
         = Stock.get_total_invested stock_metrics
           + Fund.Summary.total_invested fund_metrics
      /\ Performance.total_current p
         = Stock.get_total_current stock_metrics
           + Fund.Summary.total_current fund_metrics
      /\ Performance.total_gain p
         == get_total_gain_loss stock_metrics
            + Fund.Summary.total_gain_loss fund_metrics
      /\ Performance.total_gain_percent p
         = percent (Performance.total_gain p) (Performance.total_invested p)
      /\ Performance.stock_details p = stock_metrics
      /\ Performance.mf_details p = fund_metrics
      /\ Performance.total_current p == NetWorth.total_net_worth nw.
Proof.
  intros fetch sl fl sm fm Hs Hm.
  rewrite (get_portfolio_performance_shape _ _ _ _ _ Hs Hm).
  rewrite (NetWorthAggregation.get_net_worth_shape _ _ _ _ _ Hs Hm).
  cbv zeta. do 2 eexists.
  split; [reflexivity|]. split; [reflexivity|]. simpl.
  split; [reflexivity|]. split; [reflexivity|].
  split; [|split; [reflexivity|split; [reflexivity|split; [reflexivity|ring]]]].
  assert (Hfund : Fund.Summary.total_gain_loss fm
                  == Fund.Summary.total_current fm
                     - Fund.Summary.total_invested fm).
  { destruct (FundValuation.fund_metrics_shape fl)
      as (ti & tc & hd & _ & Hm').
    rewrite Hm in Hm'. injection Hm' as ->. simpl. reflexivity. }
  assert (Hstock : get_total_gain_loss sm
                   == Stock.get_total_current sm - Stock.get_total_invested sm).
  { destruct sl as [|kv sl].
    - simpl in Hs. injection Hs as <-. simpl. ring.
    - rewrite StockValuation.stock_metrics_nonempty in Hs by discriminate.
      destruct (Stock.metrics_loop _ _ _ _ _) as [[[ti tc] hd]|e];
        [|discriminate].
      cbn [bind] in Hs. injection Hs as <-. simpl. reflexivity. }
  rewrite Hfund, Hstock. ring.
Qed.

Lemma combined_performance_totals_witness :
  exists p nw,
    get_portfolio_performance no_quotes stocks_worth_50000 funds_worth_30000
    = Ok p
    /\ get_net_worth no_quotes stocks_worth_50000 funds_worth_30000 = Ok nw
    /\ Performance.total_invested p == 75000
    /\ Performance.total_current p == 80000
    /\ Performance.total_gain p == 5000
    /\ Performance.total_current p == NetWorth.total_net_worth nw.
Proof.
  destruct (Stock.calculate_portfolio_metrics no_quotes stocks_worth_50000)
    as [sm|e] eqn:Hs; [|vm_compute in Hs; discriminate].
  destruct (Fund.calculate_portfolio_metrics funds_worth_30000)
    as [fm|e] eqn:Hm; [|vm_compute in Hm; discriminate].
  destruct (combined_performance_totals no_quotes stocks_worth_50000
              funds_worth_30000 sm fm Hs Hm)
    as (p & nw & Hp & Hnw & Hti & Htc & Hg & _ & _ & _ & Hsame).
  exists p, nw.
  vm_compute in Hs. injection Hs as <-.
  vm_compute in Hm. injection Hm as <-.
  split; [exact Hp|]. split; [exact Hnw|].
  split; [rewrite Hti; reflexivity|].
  split; [rewrite Htc; reflexivity|].
  split; [rewrite Hg; reflexivity|].
  exact Hsame.
Defined.

End DashboardViews.

(* ------------------------------------------------------------------ *)
(** ** More on the SIP simulation *)

Module SipBehaviour.

Import MutualFundService.

Lemma sip_loop_zero_nav nav_history c : forall n a units i entry,
  (a + n <= List.length nav_history)%nat ->
  (a <= i < a + n)%nat ->
  nth_error nav_history i = Some entry ->
  NavEntry.nav entry == 0 ->
  sip_loop nav_history c (seq a n) units = Raise ZeroDivisionError.
Proof.
  induction n as [|n IH]; intros a units i entry Hlen Hi Hnth Hz; [lia|].
  simpl seq. cbn [sip_loop].
  destruct (nth_error nav_history a) as [first|] eqn:Ha.
  2:{ apply nth_error_None in Ha. lia. }
  unfold pyindex. rewrite Ha. cbn [bind]. unfold pydiv.
  destruct (Qeq_bool (NavEntry.nav first) 0) eqn:E; [reflexivity|].
  cbn [bind]. apply (IH (S a) _ i entry); try assumption; try lia.
  destruct (Nat.eq_dec i a) as [->|Hne]; [|lia].
  rewrite Ha in Hnth. injection Hnth as ->.
  apply Qeq_bool_neq in E. contradiction.
Qed.

(** X15.  When the history is long enough and one of the entries the
    simulation buys at has NAV 0, calculate_sip_returns raises
    ZeroDivisionError. *)
Theorem zero_nav_raises :
  forall get_nav float_pow scheme_code monthly_amount months i entry,
    (months <= Z.of_nat (List.length (get_nav scheme_code)))%Z ->
    (Z.of_nat i < months)%Z ->
    nth_error (get_nav scheme_code) i = Some entry ->
    NavEntry.nav entry == 0 ->
    calculate_sip_returns get_nav float_pow scheme_code monthly_amount months
    = Raise ZeroDivisionError.
Proof.
  intros get_nav float_pow code c months i entry Hlen Hi Hnth Hz.
  unfold calculate_sip_returns.
  assert (Hltb : (Z.of_nat (List.length (get_nav code)) <? months)%Z = false)
    by (apply Z.ltb_ge; assumption).
  rewrite Hltb, Z.min_l by assumption.
  rewrite (sip_loop_zero_nav _ _ _ 0%nat _ i entry); try assumption;
    [reflexivity | lia | lia].
Qed.

Lemma zero_nav_raises_witness :
  calculate_sip_returns nav_history_with_zero integral_pow "119551" 1000 3
  = Raise ZeroDivisionError.
Proof.
  apply (zero_nav_raises nav_history_with_zero integral_pow "119551"%string
           1000 3%Z 1%nat (NavEntry.mk "2024-02-01" 0)).
  - simpl. lia.
  - lia.
  - reflexivity.
  - reflexivity.
Defined.

(** X16.  Asked for 0 periods, calculate_sip_returns raises IndexError
    on an empty history; on any other history it returns figures that
    are all 0, next to the contribution and the newest NAV. *)
Theorem zero_periods :
  forall get_nav float_pow scheme_code monthly_amount,
    (get_nav scheme_code = [] ->
     calculate_sip_returns get_nav float_pow scheme_code monthly_amount 0
     = Raise IndexError)
    /\ (forall newest,
          hd_error (get_nav scheme_code) = Some newest ->
          exists r,
            calculate_sip_returns get_nav float_pow scheme_code monthly_amount 0
            = Ok (SipReturns r)
            /\ Sip.monthly_investment r = monthly_amount
            /\ Sip.current_nav r = NavEntry.nav newest
            /\ Sip.units_purchased r = 0
            /\ Sip.total_invested r == 0
            /\ Sip.current_value r == 0
            /\ Sip.gain r == 0
            /\ Sip.gain_percent r = 0
            /\ Sip.xirr_estimate r = 0).
Proof.
  intros get_nav float_pow code c. split.
  - intro Hnil. unfold calculate_sip_returns. rewrite Hnil. reflexivity.
  - intros newest Hhd. unfold calculate_sip_returns.
    destruct (get_nav code) as [|entry rest]; [discriminate|].
    simpl in Hhd. injection Hhd as ->.
    assert (Hti : c * inject_Z 0 == 0) by ring.
    cbn [List.length]. rewrite Z.min_l by lia.
    change (Z.of_nat (S (List.length rest)) <? 0)%Z with false.
    cbn [Z.to_nat seq sip_loop bind pyindex nth_error].
    rewrite guarded_percent. cbn [bind].
    rewrite SipSimulation.estimate_xirr_guarded by (now right). cbn [bind].
    eexists. split; [reflexivity|]. simpl.
    split; [reflexivity|]. split; [reflexivity|]. split; [reflexivity|].
    split; [exact Hti|]. split; [ring|]. split; [rewrite Hti; ring|].
    split; [|reflexivity].
    apply percent_nonpos. rewrite Hti. apply Qle_refl.
Qed.

Lemma zero_periods_witness :
  calculate_sip_returns no_nav_history integral_pow "119551" 1000 0
  = Raise IndexError
  /\ exists r,
       calculate_sip_returns sample_nav_history integral_pow "119551" 1000 0
       = Ok (SipReturns r)
       /\ Sip.monthly_investment r = 1000
       /\ Sip.current_nav r = 110
       /\ Sip.units_purchased r = 0
       /\ Sip.total_invested r == 0
       /\ Sip.current_value r == 0
       /\ Sip.gain r == 0
       /\ Sip.gain_percent r = 0
       /\ Sip.xirr_estimate r = 0.
Proof.
  split.
  - apply (proj1 (zero_periods no_nav_history integral_pow "119551"%string 1000)).
    reflexivity.
  - apply (proj2 (zero_periods sample_nav_history integral_pow
                    "119551"%string 1000)
             (NavEntry.mk "2024-03-01" 110)).
    reflexivity.
Defined.

Lemma inject_Z_length_cons {A : Type} (x : A) (xs : list A) :
  inject_Z (Z.of_nat (List.length (x :: xs)))
  == inject_Z (Z.of_nat (List.length xs)) + 1.
Proof.
  cbn [List.length]. rewrite Nat2Z.inj_succ. unfold Z.succ.
  rewrite inject_Z_plus. reflexivity.
Qed.

(** Units bought at NAVs no higher than [v] are worth, at [v], at least
    what was paid for them. *)
Lemma sip_units_at_high c v (entries : list NavEntry.t) :
  0 <= c ->
  Forall (fun entry => 0 < NavEntry.nav entry /\ NavEntry.nav entry <= v)
    entries ->
  c * inject_Z (Z.of_nat (List.length entries))
  <= Qsum (map (fun entry => c / NavEntry.nav entry) entries) * v.
Proof.
  intros Hc. induction 1 as [|entry entries [Hpos Hle] _ IH].
  - change (c * 0 <= 0 * v). lra.
  - rewrite inject_Z_length_cons. cbn [map Qsum fold_right].
    fold (Qsum (map (fun entry => c / NavEntry.nav entry) entries)).
    set (n := NavEntry.nav entry) in *.
    assert (Hq : 1 <= v / n) by (apply Qle_shift_div_l; lra).
    assert (Hterm : c <= c / n * v).
    { setoid_replace (c / n * v) with (v / n * c) by (field; lra).
      setoid_replace c with (1 * c) at 1 by ring.
      apply Qmult_le_compat_r; assumption. }
    lra.
Qed.

(** Units bought at NAVs no lower than [v] are worth, at [v], at most
    what was paid for them. *)
Lemma sip_units_at_low c v (entries : list NavEntry.t) :
  0 <= c -> 0 < v ->
  Forall (fun entry => v <= NavEntry.nav entry) entries ->
  Qsum (map (fun entry => c / NavEntry.nav entry) entries) * v
  <= c * inject_Z (Z.of_nat (List.length entries)).
Proof.
  intros Hc Hv. induction 1 as [|entry entries Hle _ IH].
  - change (0 * v <= c * 0). lra.
  - rewrite inject_Z_length_cons. cbn [map Qsum fold_right].
    fold (Qsum (map (fun entry => c / NavEntry.nav entry) entries)).
    set (n := NavEntry.nav entry) in *.
    assert (Hn : 0 < n) by lra.
    assert (Hq : v / n <= 1) by (apply Qle_shift_div_r; lra).
    assert (Hterm : c / n * v <= c).
    { setoid_replace (c / n * v) with (v / n * c) by (field; lra).
      setoid_replace c with (1 * c) at 2 by ring.
      apply Qmult_le_compat_r; assumption. }
    lra.
Qed.

Lemma percent_nonneg (a b : Q) : 0 <= a -> 0 <= percent a b.
Proof.
  intro Ha. unfold percent. destruct (Qgtb b 0) eqn:E; [|apply Qle_refl].
  apply Qgtb_true in E.
  assert (0 <= a / b) by (apply Qle_shift_div_l; lra). lra.
Qed.

Lemma percent_nonpos_numerator (a b : Q) : a <= 0 -> percent a b <= 0.
Proof.
  intro Ha. unfold percent. destruct (Qgtb b 0) eqn:E; [|apply Qle_refl].
  apply Qgtb_true in E.
  assert (a / b <= 0) by (apply Qle_shift_div_r; lra). lra.
Qed.

Section GainSign.

Variable float_pow : Q -> Q -> pyresult Q.

Hypothesis float_pow_returns_on_positive_base :
  forall x y, 0 < x -> exists power, float_pow x y = Ok power.

(** X17.  For a history that has a newest entry, positive NAVs, a
    period count between 0 and the length of the history and a
    contribution c >= 0, the simulation returns; when none of the NAVs
    bought at is above the newest NAV the gain and gain_percent it
    reports are >= 0, and when none is below the newest NAV they are
    <= 0 (so a flat NAV gives a gain of 0). *)
Theorem sip_gain_sign :
  forall get_nav scheme_code c months newest,
    let nav_history := get_nav scheme_code in
    let bought_at := firstn (Z.to_nat months) nav_history in
    hd_error nav_history = Some newest ->
    Forall (fun entry => 0 < NavEntry.nav entry) nav_history ->
    (0 <= months <= Z.of_nat (List.length nav_history))%Z ->
    0 <= c ->
    exists r,
      calculate_sip_returns get_nav float_pow scheme_code c months
      = Ok (SipReturns r)
      /\ (Forall (fun entry => NavEntry.nav entry <= NavEntry.nav newest)
            bought_at ->
          0 <= Sip.gain r /\ 0 <= Sip.gain_percent r)
      /\ (Forall (fun entry => NavEntry.nav newest <= NavEntry.nav entry)
            bought_at ->
          Sip.gain r <= 0 /\ Sip.gain_percent r <= 0).
Proof.
  intros get_nav code c months newest nav_history bought_at Hhd Hpos
    [Hm0 Hlen] Hc.
  assert (Hnz : Forall (fun entry => ~ NavEntry.nav entry == 0) nav_history).
  { eapply Forall_impl; [|exact Hpos]. intros e He E. simpl in He. lra. }
  destruct (SipSimulation.sip_returns_shape get_nav float_pow code c months
              newest Hlen Hhd Hnz) as (units & Hunits & ->).
  fold nav_history in Hunits. cbv zeta.
  assert (Hnewest : 0 < NavEntry.nav newest).
  { rewrite Forall_forall in Hpos. apply Hpos.
    destruct nav_history; [discriminate|]. simpl in Hhd.
    injection Hhd as ->. now left. }
  destruct (Returns.estimate_xirr_returns float_pow
              float_pow_returns_on_positive_base
              units (NavEntry.nav newest) c months) as [x ->]; try assumption.
  { intros Hcpos Hmpos. rewrite Hunits. apply SipSimulation.sip_units_pos.
    - intros E. rewrite E in Hhd. discriminate.
    - lia.
    - assumption.
    - assumption. }
  cbn [bind]. eexists. split; [reflexivity|]. simpl.
  assert (Hcount : inject_Z (Z.of_nat (List.length bought_at)) == inject_Z months).
  { unfold bought_at. rewrite length_firstn, Nat.min_l by lia.
    rewrite Z2Nat.id by assumption. reflexivity. }
  assert (Hbought : Forall (fun entry => 0 < NavEntry.nav entry) bought_at)
    by (apply SipSimulation.Forall_firstn_of; assumption).
  unfold sip_units in Hunits. fold bought_at in Hunits.
  split.
  - intro Hhigh.
    assert (Hgain : 0 <= units * NavEntry.nav newest - c * inject_Z months).
    { pose proof (sip_units_at_high c (NavEntry.nav newest) bought_at Hc) as H.
      rewrite Hcount, <- Hunits in H.
      assert (c * inject_Z months <= units * NavEntry.nav newest); [|lra].
      apply H. rewrite Forall_forall in *. intros e He. auto. }
    split; [exact Hgain | apply percent_nonneg; exact Hgain].
  - intro Hlow.
    assert (Hgain : units * NavEntry.nav newest - c * inject_Z months <= 0).
    { pose proof (sip_units_at_low c (NavEntry.nav newest) bought_at Hc
                    Hnewest Hlow) as H.
      rewrite Hcount, <- Hunits in H. lra. }
    split; [exact Hgain | apply percent_nonpos_numerator; exact Hgain].
Qed.

End GainSign.

(** The sample series has its highest NAV first. *)
Lemma sip_gain_sign_witness :
  exists r,
    calculate_sip_returns sample_nav_history integral_pow "119551" 1000 3
    = Ok (SipReturns r)
    /\ 0 <= Sip.gain r /\ 0 <= Sip.gain_percent r.
Proof.
  destruct (sip_gain_sign integral_pow Returns.integral_pow_positive_base
              sample_nav_history "119551"%string 1000 3%Z
              (NavEntry.mk "2024-03-01" 110))
    as (r & Hr & Hhigh & _).
  - reflexivity.
  - repeat constructor.
  - simpl. lia.
  - discriminate.
  - exists r. split; [exact Hr|]. apply Hhigh.
    repeat constructor; discriminate.
Defined.

Lemma nth_error_firstn_lt {A : Type} (xs : list A) : forall n i,
  (i < n)%nat -> nth_error (firstn n xs) i = nth_error xs i.
Proof.
  induction xs as [|x xs IH]; intros [|n] [|i] Hi; simpl; try lia;
    try reflexivity.
  apply IH. lia.
Qed.

Lemma sip_loop_agree history1 history2 c : forall range units,
  (forall i, In i range -> nth_error history1 i = nth_error history2 i) ->
  sip_loop history1 c range units = sip_loop history2 c range units.
Proof.
  induction range as [|i rest IH]; intros units Hagree; [reflexivity|].
  cbn [sip_loop]. unfold pyindex. rewrite (Hagree i) by now left.
  destruct (nth_error history2 i) as [entry|]; [|reflexivity]. cbn [bind].
  destruct (pydiv c (NavEntry.nav entry)) as [q|e]; [|reflexivity]. cbn [bind].
  apply IH. intros j Hj. apply Hagree. now right.
Qed.

(** X18.  The simulation reads the N newest entries only: two
    histories with at least N >= 1 entries each that agree on their
    first N entries give the same result, whatever older entries they
    hold. *)
Theorem sip_reads_newest_entries_only :
  forall get_nav1 get_nav2 float_pow scheme_code monthly_amount months,
    let history1 := get_nav1 scheme_code in
    let history2 := get_nav2 scheme_code in
    (0 < months)%Z ->
    (months <= Z.of_nat (List.length history1))%Z ->
    (months <= Z.of_nat (List.length history2))%Z ->
    firstn (Z.to_nat months) history1 = firstn (Z.to_nat months) history2 ->
    calculate_sip_returns get_nav1 float_pow scheme_code monthly_amount months
    = calculate_sip_returns get_nav2 float_pow scheme_code monthly_amount months.
Proof.
  intros get_nav1 get_nav2 float_pow code c months history1 history2
    Hpos Hlen1 Hlen2 Hfirst.
  unfold calculate_sip_returns. fold history1 history2.
  assert (H1 : (Z.of_nat (List.length history1) <? months)%Z = false)
    by (apply Z.ltb_ge; assumption).
  assert (H2 : (Z.of_nat (List.length history2) <? months)%Z = false)
    by (apply Z.ltb_ge; assumption).
  rewrite H1, H2, !Z.min_l by assumption.
  assert (Hagree : forall i, (i < Z.to_nat months)%nat ->
                             nth_error history1 i = nth_error history2 i).
  { intros i Hi.
    rewrite <- (nth_error_firstn_lt history1 (Z.to_nat months) i Hi).
    rewrite <- (nth_error_firstn_lt history2 (Z.to_nat months) i Hi).
    now rewrite Hfirst. }
  rewrite (sip_loop_agree history1 history2).
  2:{ intros i Hi. apply in_seq in Hi. apply Hagree. lia. }
  unfold pyindex. rewrite (Hagree 0%nat) by lia. reflexivity.
Qed.

Lemma sip_reads_newest_entries_only_witness :
  calculate_sip_returns sample_nav_history integral_pow "119551" 1000 3
  = calculate_sip_returns longer_nav_history integral_pow "119551" 1000 3.
Proof.
  apply (sip_reads_newest_entries_only sample_nav_history longer_nav_history
           integral_pow "119551"%string 1000 3%Z).
  - lia.
  - simpl. lia.
  - simpl. lia.
  - reflexivity.
Defined.

Lemma integral_pow_exponent_one (x y : Q) : y == 1 -> integral_pow x y = Ok x.
Proof.
  intro Hy. unfold integral_pow.
  assert (Hf : Qfloor y = 1%Z) by (rewrite Hy; reflexivity).
  rewrite Hf, andb_false_r. reflexivity.
Qed.

(** X19.  Over 12 periods the annualised estimate is the plain return:
    with a power operator for which x ** 1 is x, and total_invested > 0,
    _estimate_xirr with months = 12 returns a value equal to
    (current_value - total_invested) / total_invested * 100, which is
    what the simulation reports as gain_percent. *)
Theorem estimate_over_twelve_months :
  forall float_pow current_value total_invested,
    (forall x y, y == 1 -> float_pow x y = Ok x) ->
    0 < total_invested ->
    exists estimate,
      _estimate_xirr float_pow current_value total_invested 12 = Ok estimate
      /\ estimate == (current_value - total_invested) / total_invested * 100
      /\ estimate == percent (current_value - total_invested) total_invested.
Proof.
  intros float_pow cv ti Hpow Hti.
  rewrite SipSimulation.estimate_xirr_formula; [|lra|discriminate].
  rewrite Hpow by reflexivity. cbn [bind].
  eexists. split; [reflexivity|].
  assert (H : (1 + (cv - ti) / ti - 1) * 100 == (cv - ti) / ti * 100) by ring.
  split; [exact H|].
  rewrite percent_pos by assumption. exact H.
Qed.

Lemma estimate_over_twelve_months_witness :
  exists estimate,
    _estimate_xirr integral_pow 3300 3000 12 = Ok estimate
    /\ estimate == (3300 - 3000) / 3000 * 100
    /\ estimate == percent (3300 - 3000) 3000.
Proof.
  apply (estimate_over_twelve_months integral_pow 3300 3000).
  - exact integral_pow_exponent_one.
  - reflexivity.
Defined.

End SipBehaviour.

(* ------------------------------------------------------------------ *)
(** ** Statement parsing *)

Module StatementParsing.

Import BankAggregatorService.

(** The inner loop, on transactions without a null amount, appends one
    parsed transaction per raw transaction. *)
Lemma transactions_loop_ok account : forall txns done,
  amounts_not_null txns ->
  exists added,
    transactions_loop account txns done = Ok (done ++ added)
    /\ Forall2 parsed_from (map (pair account) txns) added.
Proof.
  induction txns as [|txn rest IH]; intros done Hok.
  - exists []. split; [simpl; now rewrite app_nil_r | constructor].
  - inversion Hok as [|? ? Hamount Hrest]; subst.
    cbn [transactions_loop]. unfold classified_amount.
    destruct (RawTransaction.amount txn) as [| |amount] eqn:Ha;
      [|congruence|]; cbn [field_get_default].
    + destruct (IH (done ++ [Transaction.mk
                   (field_get (RawAccount.account_number account))
                   (field_get (RawAccount.bank_name account))
                   (field_get (RawTransaction.date txn))
                   (field_get (@Absent Q))
                   (if Qltb 0 0 then "debit"%string else "credit"%string)
                   (field_get_default (RawTransaction.description txn) EmptyString)
                   (field_get (RawTransaction.balance_after_transaction txn))
                   (field_get (RawTransaction.reference_id txn))]) Hrest)
        as (added & -> & Hadded).
      eexists (_ :: added). split; [rewrite <- app_assoc; reflexivity|].
      cbn [map]. constructor; [|exact Hadded].
      unfold parsed_from, classified_amount. rewrite Ha. simpl. repeat split.
    + destruct (IH (done ++ [Transaction.mk
                   (field_get (RawAccount.account_number account))
                   (field_get (RawAccount.bank_name account))
                   (field_get (RawTransaction.date txn))
                   (field_get (Value amount))
                   (if Qltb amount 0 then "debit"%string else "credit"%string)
                   (field_get_default (RawTransaction.description txn) EmptyString)
                   (field_get (RawTransaction.balance_after_transaction txn))
                   (field_get (RawTransaction.reference_id txn))]) Hrest)
        as (added & -> & Hadded).
      eexists (_ :: added). split; [rewrite <- app_assoc; reflexivity|].
      cbn [map]. constructor; [|exact Hadded].
      unfold parsed_from, classified_amount. rewrite Ha. simpl. repeat split.
Qed.

(** A null amount stops the inner loop with a [TypeError]. *)
Lemma transactions_loop_null account : forall txns done,
  ~ amounts_not_null txns ->
  transactions_loop account txns done = Raise TypeError.
Proof.
  induction txns as [|txn rest IH]; intros done Hnot.
  - exfalso. apply Hnot. constructor.
  - cbn [transactions_loop].
    destruct (RawTransaction.amount txn) as [| |amount] eqn:Ha;
      cbn [field_get_default]; [|reflexivity|];
      (apply IH; intro Hrest; apply Hnot; constructor;
       [rewrite Ha; discriminate | exact Hrest]).
Qed.

Lemma amounts_not_null_dec txns : amounts_not_null txns \/ ~ amounts_not_null txns.
Proof.
  induction txns as [|txn rest [IH|IH]].
  - left. constructor.
  - destruct (RawTransaction.amount txn) eqn:Ha.
    + left. constructor; [rewrite Ha; discriminate | assumption].
    + right. intro H. inversion H. congruence.
    + left. constructor; [rewrite Ha; discriminate | assumption].
  - right. intro H. inversion H. contradiction.
Qed.

Lemma accounts_loop_ok : forall accounts done,
  accounts_not_null accounts ->
  exists added,
    accounts_loop accounts done = Ok (done ++ added)
    /\ Forall2 parsed_from
         (flat_map (fun account =>
                      map (pair account)
                        (listed (RawAccount.transactions account)))
            accounts)
         added.
Proof.
  induction accounts as [|account rest IH]; intros done Hok.
  - exists []. split; [simpl; now rewrite app_nil_r | constructor].
  - inversion Hok as [|? ? [Hlist Hamounts] Hrest]; subst.
    cbn [accounts_loop flat_map].
    assert (Hget : field_get_default (RawAccount.transactions account) []
                   = Some (listed (RawAccount.transactions account))).
    { unfold listed. destruct (RawAccount.transactions account);
        [reflexivity | congruence | reflexivity]. }
    rewrite Hget.
    destruct (transactions_loop_ok account _ done Hamounts)
      as (added1 & -> & Hadded1). cbn [bind].
    destruct (IH (done ++ added1) Hrest) as (added2 & -> & Hadded2).
    exists (added1 ++ added2). split; [now rewrite app_assoc|].
    apply Forall2_app; assumption.
Qed.

Lemma accounts_loop_null : forall accounts done,
  ~ accounts_not_null accounts ->
  accounts_loop accounts done = Raise TypeError.
Proof.
  induction accounts as [|account rest IH]; intros done Hnot.
  - exfalso. apply Hnot. constructor.
  - cbn [accounts_loop].
    destruct (RawAccount.transactions account) as [| |txns] eqn:Ht;
      cbn [field_get_default]; [|reflexivity|].
    + cbn [transactions_loop bind]. apply IH. intro Hrest. apply Hnot.
      constructor; [|exact Hrest]. rewrite Ht.
      split; [discriminate | constructor].
    + destruct (amounts_not_null_dec txns) as [Hok|Hbad].
      * destruct (transactions_loop_ok account txns done Hok)
          as (added & -> & _). cbn [bind].
        apply IH. intro Hrest. apply Hnot.
        constructor; [|exact Hrest]. rewrite Ht.
        split; [discriminate | exact Hok].
      * rewrite (transactions_loop_null account txns done Hbad). reflexivity.
Qed.

Lemma accounts_not_null_dec accounts :
  accounts_not_null accounts \/ ~ accounts_not_null accounts.
Proof.
  induction accounts as [|account rest [IH|IH]].
  - left. constructor.
  - destruct (RawAccount.transactions account) as [| |txns] eqn:Ht.
    + left. constructor; [|assumption]. rewrite Ht.
      split; [discriminate | constructor].
    + right. intro H. inversion H as [|? ? [Hnull _] _]. congruence.
    + destruct (amounts_not_null_dec txns) as [Hok|Hbad].
      * left. constructor; [|assumption]. rewrite Ht.
        split; [discriminate | exact Hok].
      * right. intro H. inversion H as [|? ? [_ Hamounts] _]; subst.
        rewrite Ht in Hamounts. contradiction.
  - right. intro H. inversion H. contradiction.
Qed.

Lemma statements_not_null_dec raw_data :
  statements_not_null raw_data \/ ~ statements_not_null raw_data.
Proof.
  unfold statements_not_null.
  destruct (RawData.accounts raw_data) as [| |accounts].
  - left. split; [discriminate | constructor].
  - right. intros [H _]. congruence.
  - destruct (accounts_not_null_dec accounts) as [Hok|Hbad].
    + left. split; [discriminate | exact Hok].
    + right. intros [_ H]. contradiction.
Qed.

Lemma parse_statements_ok raw_data :
  statements_not_null raw_data ->
  exists transactions,
    _parse_statements raw_data = Ok transactions
    /\ Forall2 parsed_from (raw_transactions raw_data) transactions.
Proof.
  intros [Hlist Haccounts]. unfold _parse_statements, raw_transactions.
  assert (Hget : field_get_default (RawData.accounts raw_data) []
                 = Some (listed (RawData.accounts raw_data))).
  { unfold listed. destruct (RawData.accounts raw_data);
      [reflexivity | congruence | reflexivity]. }
  rewrite Hget.
  destruct (accounts_loop_ok _ [] Haccounts) as (added & -> & Hadded).
  exists added. split; [reflexivity | exact Hadded].
Qed.

Lemma parse_statements_null raw_data :
  ~ statements_not_null raw_data ->
  _parse_statements raw_data = Raise TypeError.
Proof.
  intro Hnot. unfold _parse_statements.
  destruct (RawData.accounts raw_data) as [| |accounts] eqn:Ha;
    cbn [field_get_default]; [|reflexivity|].
  - exfalso. apply Hnot. unfold statements_not_null. rewrite Ha.
    split; [discriminate | constructor].
  - apply accounts_loop_null. intro Hok. apply Hnot.
    unfold statements_not_null. rewrite Ha. split; [discriminate | exact Hok].
Qed.

(** X20.  On raw data without a null where it iterates or compares,
    _parse_statements returns one parsed transaction per raw
    transaction, in the order of the accounts and of each account's
    transactions; each carries its account's number and bank name and its
    own date, amount, balance and reference (None for a missing key), an
    empty description when the key is missing, and the type debit or
    credit by the sign of its amount, a missing amount counting as 0.  A
    missing accounts or transactions key contributes nothing. *)
Theorem parse_statements_transactions :
  forall raw_data,
    statements_not_null raw_data ->
    exists transactions,
      _parse_statements raw_data = Ok transactions
      /\ List.length transactions = List.length (raw_transactions raw_data)
      /\ Forall2 parsed_from (raw_transactions raw_data) transactions.
Proof.
  intros raw_data Hok.
  destruct (parse_statements_ok raw_data Hok) as (ts & Hts & Hall).
  exists ts. split; [exact Hts|]. split; [|exact Hall].
  symmetry. eapply Forall2_length. exact Hall.
Qed.

Lemma parse_statements_transactions_witness :
  exists transactions,
    _parse_statements sample_statement = Ok transactions
    /\ List.length transactions = 3%nat
    /\ Forall2 parsed_from (raw_transactions sample_statement) transactions
    /\ map Transaction.kind transactions
       = ["debit"; "credit"; "credit"]%string
    /\ map Transaction.description transactions
       = [Some "Rent"%string; Some EmptyString; None].
Proof.
  assert (Hok : statements_not_null sample_statement).
  { split; [discriminate|]. repeat constructor; discriminate. }
  destruct (parse_statements_transactions sample_statement Hok)
    as (ts & Hts & Hlen & Hall).
  exists ts. split; [exact Hts|]. split; [exact Hlen|]. split; [exact Hall|].
  vm_compute in Hts. injection Hts as <-. split; reflexivity.
Defined.

(** X21.  _parse_statements raises exactly when the raw data holds a
    null accounts list, a null transactions list or a null amount, and
    what it raises then is TypeError. *)
Theorem parse_statements_fails_on_null :
  forall raw_data,
    (~ statements_not_null raw_data ->
     _parse_statements raw_data = Raise TypeError)
    /\ (forall e,
          _parse_statements raw_data = Raise e ->
          e = TypeError /\ ~ statements_not_null raw_data).
Proof.
  intro raw_data. split.
  - apply parse_statements_null.
  - intros e He.
    destruct (statements_not_null_dec raw_data) as [Hok|Hbad].
    + destruct (parse_statements_ok raw_data Hok) as (ts & Hts & _).
      congruence.
    + rewrite (parse_statements_null raw_data Hbad) in He.
      injection He as <-. split; [reflexivity | exact Hbad].
Qed.

Lemma parse_statements_fails_on_null_witness :
  ~ statements_not_null statement_with_null_amount
  /\ _parse_statements statement_with_null_amount = Raise TypeError.
Proof.
  assert (Hbad : ~ statements_not_null statement_with_null_amount).
  { intros [_ H]. inversion H as [|? ? [_ Hamounts] _]; subst.
    inversion Hamounts as [|? ? _ Hrest]; subst.
    inversion Hrest as [|? ? Hnull _]; subst. apply Hnull. reflexivity. }
  split; [exact Hbad|].
  exact (proj1 (parse_statements_fails_on_null statement_with_null_amount) Hbad).
Defined.

Lemma Forall2_Forall_right {A B : Type} (R : A -> B -> Prop) (P : B -> Prop)
    (xs : list A) (ys : list B) :
  (forall x y, R x y -> P y) -> Forall2 R xs ys -> Forall P ys.
Proof.
  intros HRP. induction 1; constructor; eauto.
Qed.

Lemma Qltb_true (x y : Q) : Qltb x y = true <-> x < y.
Proof. unfold Qltb. apply Qgtb_true. Qed.

(** X22.  In whatever _parse_statements returns, a transaction's type
    is debit exactly when it has an amount below 0, and credit
    otherwise: with an amount of 0 or more, and with no amount. *)
Theorem parsed_type_follows_amount :
  forall raw_data transactions,
    _parse_statements raw_data = Ok transactions ->
    Forall (fun t =>
              (Transaction.kind t = "debit"%string
               <-> exists amount,
                     Transaction.amount t = Some amount /\ amount < 0)
              /\ (Transaction.kind t = "credit"%string
                  <-> ~ exists amount,
                          Transaction.amount t = Some amount /\ amount < 0))
      transactions.
Proof.
  intros raw_data ts Hts.
  destruct (statements_not_null_dec raw_data) as [Hok|Hbad].
  2:{ rewrite (parse_statements_null raw_data Hbad) in Hts. discriminate. }
  destruct (parse_statements_ok raw_data Hok) as (ts' & Hts' & Hall).
  rewrite Hts in Hts'. injection Hts' as <-.
  eapply Forall2_Forall_right; [|exact Hall].
  intros [account txn] t (_ & _ & _ & Hamount & Hkind & _).
  unfold classified_amount in Hkind. rewrite <- Hamount in Hkind.
  destruct (Transaction.amount t) as [amount|].
  - destruct (Qltb amount 0) eqn:E; rewrite Hkind.
    + apply Qltb_true in E.
      assert (Hex : exists a, Some amount = Some a /\ a < 0)
        by (exists amount; split; [reflexivity | exact E]).
      split; split; intro; try reflexivity; try assumption;
        try contradiction; congruence.
    + assert (Hnex : ~ exists a, Some amount = Some a /\ a < 0).
      { intros (a & [= <-] & Ha). apply Qltb_true in Ha. congruence. }
      split; split; intro; try reflexivity; try assumption;
        try contradiction; congruence.
  - change (Qltb 0 0) with false in Hkind. rewrite Hkind.
    assert (Hnex : ~ exists a, @None Q = Some a /\ a < 0).
    { intros (a & Ha & _). discriminate. }
    split; split; intro; try reflexivity; try assumption;
      try contradiction; congruence.
Qed.

Lemma parsed_type_follows_amount_witness :
  exists transactions,
    _parse_statements sample_statement = Ok transactions
    /\ Forall (fun t =>
                 (Transaction.kind t = "debit"%string
                  <-> exists amount,
                        Transaction.amount t = Some amount /\ amount < 0)
                 /\ (Transaction.kind t = "credit"%string
                     <-> ~ exists amount,
                             Transaction.amount t = Some amount /\ amount < 0))
         transactions.
Proof.
  destruct (_parse_statements sample_statement) as [ts|e] eqn:Hts;
    [|vm_compute in Hts; discriminate].
  exists ts. split; [reflexivity|].
  exact (parsed_type_follows_amount sample_statement ts Hts).
Defined.

End StatementParsing.

(* ------------------------------------------------------------------ *)
(** ** Scheme search *)

Module SchemeSearch.

Import MutualFundService.

Lemma search_loop_first_match lower query : forall items,
  Forall (fun entry => SchemeData.schemeName (snd entry) <> Null) items ->
  match search_loop lower query items with
  | Found result =>
      exists before data after,
        items = before ++ (SchemeMatch.scheme_code result, data) :: after
        /\ Forall (fun entry => ~ scheme_matches lower query entry) before
        /\ scheme_matches lower query (SchemeMatch.scheme_code result, data)
        /\ SchemeMatch.scheme_name result
           = field_get (SchemeData.schemeName data)
  | NotFound => Forall (fun entry => ~ scheme_matches lower query entry) items
  | AttributeErrorRaised => False
  end.
Proof.
  induction items as [|[code data] rest IH]; intros Hnames.
  - constructor.
  - inversion Hnames as [|? ? Hname Hrest]; subst. simpl in Hname.
    cbn [search_loop].
    assert (Hget : field_get_default (SchemeData.schemeName data) EmptyString
                   = Some (matched_name data)).
    { unfold matched_name. destruct (SchemeData.schemeName data);
        [reflexivity | congruence | reflexivity]. }
    rewrite Hget.
    destruct (str_in (lower query) (lower (matched_name data))) eqn:E.
    + exists [], data, rest. simpl. repeat split; [constructor | exact E].
    + specialize (IH Hrest).
      assert (Hmiss : ~ scheme_matches lower query (code, data)).
      { unfold scheme_matches. simpl. congruence. }
      destruct (search_loop lower query rest) as [result| |].
      * destruct IH as (before & data' & after & -> & Hbefore & Hmatch & Hname').
        exists ((code, data) :: before), data', after.
        repeat split; try assumption. constructor; assumption.
      * constructor; assumption.
      * exact IH.
Qed.

(** X23.  search_scheme raises AttributeError whenever the directory
    is a list, as it is after a failed request.  On a directory object
    whose names are not null it returns the first scheme, in the
    object's order, whose name contains the query without regard to
    case, with that scheme's code and name; it returns None exactly when
    no scheme matches. *)
Theorem search_scheme_first_match :
  forall lower query,
    (forall entries,
        search_scheme (SchemeList entries) lower query = AttributeErrorRaised)
    /\ (forall directory,
          Forall (fun entry => SchemeData.schemeName (snd entry) <> Null)
            directory ->
          match search_scheme (SchemeDict directory) lower query with
          | Found result =>
              exists before data after,
                directory
                = before ++ (SchemeMatch.scheme_code result, data) :: after
                /\ Forall (fun entry => ~ scheme_matches lower query entry)
                     before
                /\ scheme_matches lower query
                     (SchemeMatch.scheme_code result, data)
                /\ SchemeMatch.scheme_name result
                   = field_get (SchemeData.schemeName data)
          | NotFound =>
              Forall (fun entry => ~ scheme_matches lower query entry)
                directory
          | AttributeErrorRaised => False
          end).
Proof.
  intros lower query. split.
  - reflexivity.
  - intros directory Hnames. apply search_loop_first_match. exact Hnames.
Qed.

(** Two schemes are growth funds; the search stops at the first. *)
Lemma search_scheme_first_match_witness :
  search_scheme (SchemeList []) ascii_lower "growth" = AttributeErrorRaised
  /\ search_scheme (SchemeDict sample_directory) ascii_lower "GROWTH"
     = Found (SchemeMatch.mk "102170" (Some "ICICI Growth Fund"%string))
  /\ exists before data after,
       sample_directory = before ++ ("102170"%string, data) :: after
       /\ Forall (fun entry => ~ scheme_matches ascii_lower "GROWTH" entry)
            before
       /\ scheme_matches ascii_lower "GROWTH" ("102170"%string, data).
Proof.
  split; [exact (proj1 (search_scheme_first_match ascii_lower "growth") [])|].
  split; [reflexivity|].
  assert (Hnames : Forall (fun entry => SchemeData.schemeName (snd entry) <> Null)
                     sample_directory)
    by (repeat constructor; discriminate).
  pose proof (proj2 (search_scheme_first_match ascii_lower "GROWTH")
                sample_directory Hnames) as H.
  change (search_scheme (SchemeDict sample_directory) ascii_lower "GROWTH")
    with (Found (SchemeMatch.mk "102170" (Some "ICICI Growth Fund"%string)))
    in H.
  destruct H as (before & data & after & Hsplit & Hbefore & Hmatch & _).
  exists before, data, after. repeat split; assumption.
Defined.

End SchemeSearch.
